(** * PyAutomate: the batch unicorn-name generator of [app.py]

    A shallow embedding of [app.py]: the row loop of
    [scrape_unicorn_names_async], the text clean-up it applies to a scraped
    label, the month table, and the Streamlit script that validates the
    upload and waits for the worker.

    Python [str] values are sequences of Unicode code points, and are kept
    as such; the browser page driven through Playwright is an abstract
    state with fallible operations. *)

From Stdlib Require Import List ZArith NArith QArith Qround Lia Bool String Ascii.
From Stdlib Require Import DecimalString.
Import ListNotations.

Local Open Scope Z_scope.

(* ================================================================= *)
(** ** Python strings *)

Module PyStr.

(** A [str] is a list of code points. *)
Definition pystr := list N.

(** An ASCII literal of the source, code point by code point. *)
Fixpoint lit (s : string) : pystr :=
  match s with
  | EmptyString => []
  | String a r => N_of_ascii a :: lit r
  end.

Definition SPACE : N := 32%N.
Definition NEWLINE : N := 10%N.

(** The code points [str.strip()] removes when called without an
    argument (CPython's [Py_UNICODE_ISSPACE]). *)
Definition isspace (c : N) : bool :=
  ((9 <=? c) && (c <=? 13) || (28 <=? c) && (c <=? 32)
   || (c =? 133) || (c =? 160) || (c =? 5760)
   || (8192 <=? c) && (c <=? 8202)
   || (c =? 8232) || (c =? 8233) || (c =? 8239) || (c =? 8287)
   || (c =? 12288))%N.

Fixpoint lstrip (s : pystr) : pystr :=
  match s with
  | [] => []
  | c :: r => if isspace c then lstrip r else s
  end.

Definition rstrip (s : pystr) : pystr := rev (lstrip (rev s)).

(** [s.strip()] *)
Definition strip (s : pystr) : pystr := rstrip (lstrip s).

Fixpoint eqb (a b : pystr) : bool :=
  match a, b with
  | [], [] => true
  | x :: a', y :: b' => (x =? y)%N && eqb a' b'
  | _, _ => false
  end.

Fixpoint startswith (s p : pystr) {struct p} : bool :=
  match p, s with
  | [], _ => true
  | x :: p', y :: s' => (x =? y)%N && startswith s' p'
  | _ :: _, [] => false
  end.

(** [s.replace(old, new)] for a non-empty [old]: the occurrences of [old]
    are found from left to right and do not overlap.  [skip] counts the
    code points of a match that are still to be passed over. *)
Fixpoint replace_from (old new : pystr) (skip : nat) (s : pystr) : pystr :=
  match s with
  | [] => []
  | c :: r =>
      match skip with
      | S k => replace_from old new k r
      | O =>
          if startswith s old
          then new ++ replace_from old new (Nat.pred (List.length old)) r
          else c :: replace_from old new 0 r
      end
  end.

Definition replace (old new s : pystr) : pystr := replace_from old new 0 s.

(** [sep.join(parts)] *)
Fixpoint join (sep : pystr) (parts : list pystr) : pystr :=
  match parts with
  | [] => []
  | [p] => p
  | p :: rest => p ++ sep ++ join sep rest
  end.

(** [p in s] for strings *)
Fixpoint contains (s p : pystr) : bool :=
  startswith s p || match s with [] => false | _ :: r => contains r p end.

(** [str(n)] of an [int] *)
Definition of_Z (z : Z) : pystr := lit (NilZero.string_of_int (Z.to_int z)).

End PyStr.

Import PyStr.

(* ================================================================= *)
(** ** Constants of the module *)

Definition MONTHS : list pystr :=
  [ lit "January"; lit "February"; lit "March"; lit "April"; lit "May";
    lit "June"; lit "July"; lit "August"; lit "September"; lit "October";
    lit "November"; lit "December" ].

(** The en dash of ["Month must be 1–12"] is U+2013. *)
Definition EN_DASH : N := 8211%N.

Definition MONTH_MESSAGE : pystr :=
  lit "Month must be 1" ++ [EN_DASH] ++ lit "12".

(** [name.strip().replace("\n", " ").replace("  ", " ")] *)
Definition cleaned (name : pystr) : pystr :=
  replace [SPACE; SPACE] [SPACE] (replace [NEWLINE] [SPACE] (strip name)).

(* ================================================================= *)
(** ** Exceptions and cell values *)

(** A raised [Exception]: its [str(e)], and whether its class is (a
    subclass of) [concurrent.futures.TimeoutError], the one class the
    script tells apart. *)
Record Exn := mkExn { exn_timeout : bool; exn_msg : pystr }.

Definition ValueError (msg : pystr) : Exn := mkExn false msg.
Definition OverflowError (msg : pystr) : Exn := mkExn false msg.
Definition ZeroDivisionError (msg : pystr) : Exn := mkExn false msg.
Definition TypeError (msg : pystr) : Exn := mkExn false msg.
(** [str(KeyError(k))] is the [repr] of the key; the keys looked up here
    are the plain labels ['Name'] and ['Month']. *)
Definition KeyError (k : pystr) : Exn := mkExn false (lit "'" ++ k ++ lit "'").

(** A [float64]: every finite one is a rational. *)
Inductive PyFloat :=
| FNan
| FInf (negative : bool)
| FFin (q : Q).

(** What [pd.read_csv] puts in a cell: an [int64], a [float64] (NaN for an
    empty field), a [bool], or a [str] in an [object] column. *)
Inductive Cell :=
| CInt (z : Z)
| CFloat (f : PyFloat)
| CBool (b : bool)
| CStr (s : pystr).

(** Builtins of the interpreter whose tables are not part of the program:
    [str()] of a finite float (its shortest round-trip [repr]), [int()] of
    a [str] (Unicode digits and spaces, [repr] in the message), and the
    rounded sum [x + 1] of a finite float. *)
Class Builtins := {
  repr_float : Q -> pystr;
  int_of_str : pystr -> Exn + Z;
  float_plus_one : Q -> PyFloat
}.

(** [str(cell)] *)
Definition py_str `{Builtins} (c : Cell) : pystr :=
  match c with
  | CStr s => s
  | CInt z => of_Z z
  | CBool b => if b then lit "True" else lit "False"
  | CFloat FNan => lit "nan"
  | CFloat (FInf negative) => if negative then lit "-inf" else lit "inf"
  | CFloat (FFin q) => repr_float q
  end.

(** [int(x)] of a finite float rounds toward zero. *)
Definition truncate (q : Q) : Z :=
  if Qle_bool 0 q then Qfloor q else Qceiling q.

(** [int(cell)] *)
Definition py_int `{Builtins} (c : Cell) : Exn + Z :=
  match c with
  | CInt z => inr z
  | CBool b => inr (if b then 1 else 0)
  | CFloat FNan => inl (ValueError (lit "cannot convert float NaN to integer"))
  | CFloat (FInf _) =>
      inl (OverflowError (lit "cannot convert float infinity to integer"))
  | CFloat (FFin q) => inr (truncate q)
  | CStr s => int_of_str s
  end.

(** An [int64] as a [float64]: exact up to 2^53 in size, rounded to the
    nearest value with a 53-bit mantissa, ties to even, beyond. *)
Definition round_to_double (z : Z) : Z :=
  let a := Z.abs z in
  let e := Z.log2 a - 52 in
  if e <=? 0 then z
  else
    let m := 2 ^ e in
    let q := a / m in
    let r := a mod m in
    let half := m / 2 in
    let q' := if r <? half then q
              else if half <? r then q + 1
              else if Z.even q then q else q + 1 in
    Z.sgn z * (q' * m).

Definition float_of_int (z : Z) : PyFloat := FFin (inject_Z (round_to_double z)).

(* ================================================================= *)
(** ** Row labels *)

(** A label of the index of a table.  [pd.read_csv(uploaded_file)] is
    called without [index_col]: when every data line has as many fields as
    the header the labels are those of the default [RangeIndex], 0, 1, 2,
    ...; when the data lines hold one field more, the first field of each
    line is its label, of whatever type the fields have; with two or more
    fields more, the label is a tuple. *)
Inductive Label :=
| LInt (z : Z)
| LFloat (f : PyFloat)
| LBool (b : bool)
| LStr (s : pystr)
| LTuple (items : list Cell).

Inductive Index :=
| RangeIndex
| Labelled (ls : list Label).

Definition DOUBLE_QUOTE : N := 34%N.

(** The message of [TypeError] for [x + 1] when [x] is a [str] or a
    [tuple]. *)
Definition concatenate_message (kind : pystr) : pystr :=
  lit "can only concatenate " ++ kind ++ lit " (not " ++ [DOUBLE_QUOTE]
  ++ lit "int" ++ [DOUBLE_QUOTE] ++ lit ") to " ++ kind.

(** [i + 1] for a label [i]: a number for a numeric label, an exception
    for a text or a tuple. *)
Definition plus_one `{Builtins} (i : Label) : Exn + Cell :=
  match i with
  | LInt z => inr (CInt (z + 1))
  | LBool b => inr (CInt ((if b then 1 else 0) + 1))
  | LFloat FNan => inr (CFloat FNan)
  | LFloat (FInf negative) => inr (CFloat (FInf negative))
  | LFloat (FFin q) => inr (CFloat (float_plus_one q))
  | LStr _ => inl (TypeError (concatenate_message (lit "str")))
  | LTuple _ => inl (TypeError (concatenate_message (lit "tuple")))
  end.

(** The labels on which [i + 1] is a number. *)
Definition numeric (i : Label) : bool :=
  match i with
  | LStr _ | LTuple _ => false
  | _ => true
  end.

(* ================================================================= *)
(** ** Tables *)

(** A [DataFrame]: its index, the column labels and the rows, each row
    holding one cell per column. *)
Record DataFrame := mkIndexed {
  index : Index;
  columns : list pystr;
  rows : list (list Cell)
}.

(** A table with the default index. *)
Definition mkDF (cols : list pystr) (rs : list (list Cell)) : DataFrame :=
  mkIndexed RangeIndex cols rs.

(** [len(df)] *)
Definition len (df : DataFrame) : nat := List.length (rows df).

(** The label of row [k]. *)
Definition label_at (idx : Index) (k : nat) : Label :=
  match idx with
  | RangeIndex => LInt (Z.of_nat k)
  | Labelled ls => nth k ls (LInt (Z.of_nat k))
  end.

(** Whether [i + 1] is a number for every row label of the table. *)
Definition numeric_index (df : DataFrame) : bool :=
  forallb (fun k => numeric (label_at (index df) k)) (seq 0 (len df)).

(** The dtype pandas gives a column. *)
Inductive Dtype := Int64 | Float64 | BoolDtype | ObjectDtype.

Definition is_int (c : Cell) : bool :=
  match c with CInt _ => true | _ => false end.
Definition is_float (c : Cell) : bool :=
  match c with CFloat _ => true | _ => false end.
Definition is_bool (c : Cell) : bool :=
  match c with CBool _ => true | _ => false end.

(** The cells of column number [k]. *)
Definition column_cells (k : nat) (rs : list (list Cell)) : list Cell :=
  flat_map (fun r => match nth_error r k with Some c => [c] | None => [] end) rs.

Definition column_dtype (cells : list Cell) : Dtype :=
  if forallb is_int cells then Int64
  else if forallb is_float cells then Float64
  else if forallb is_bool cells then BoolDtype
  else ObjectDtype.

Definition dtypes (df : DataFrame) : list Dtype :=
  map (fun k => column_dtype (column_cells k (rows df)))
      (seq 0 (List.length (columns df))).

(** [df.values] is one array with the common dtype of the columns: it is
    [float64] when the columns are [int64] and [float64] with at least one
    [float64], and then the integers are stored as floats; with a [bool]
    or an [object] column it is [object] and every cell keeps its type. *)
Definition values_are_float (df : DataFrame) : bool :=
  forallb (fun d => match d with Int64 | Float64 => true | _ => false end)
          (dtypes df)
  && existsb (fun d => match d with Float64 => true | _ => false end)
             (dtypes df).

Definition as_float (c : Cell) : Cell :=
  match c with
  | CInt z => CFloat (float_of_int z)
  | _ => c
  end.

(** [df.values] *)
Definition values (df : DataFrame) : list (list Cell) :=
  if values_are_float df then map (map as_float) (rows df) else rows df.

(** A row as [iterrows] yields it: labels paired with values. *)
Definition Series := list (pystr * Cell).

Fixpoint series_find (k : pystr) (row : Series) : option Cell :=
  match row with
  | [] => None
  | (l, v) :: r => if PyStr.eqb l k then Some v else series_find k r
  end.

(** [row[k]] *)
Definition getitem (row : Series) (k : pystr) : Exn + Cell :=
  match series_find k row with
  | Some v => inr v
  | None => inl (KeyError k)
  end.

Fixpoint iterrows_from (k : nat) (idx : Index) (cols : list pystr)
  (vs : list (list Cell)) : list (Label * Series) :=
  match vs with
  | [] => []
  | v :: rest =>
      (label_at idx k, combine cols v) :: iterrows_from (S k) idx cols rest
  end.

(** [df.iterrows()]: [zip(self.index, self.values)], each row of values
    made a [Series] over the columns; in table order. *)
Definition iterrows (df : DataFrame) : list (Label * Series) :=
  iterrows_from 0 (index df) (columns df) (values df).

Fixpoint index_of (k : pystr) (cols : list pystr) : option nat :=
  match cols with
  | [] => None
  | c :: r => if PyStr.eqb c k then Some O
              else option_map S (index_of k r)
  end.

Fixpoint set_nth (k : nat) (v : Cell) (r : list Cell) : list Cell :=
  match r, k with
  | [], _ => []
  | _ :: t, O => v :: t
  | x :: t, S k' => x :: set_nth k' v t
  end.

(** [df[key] = values]: an existing column is overwritten where it stands,
    a new one is added last; a list of the wrong length is refused.  The
    index stays. *)
Definition setitem (df : DataFrame) (key : pystr) (values : list Cell)
  : Exn + DataFrame :=
  if Nat.eqb (List.length values) (len df) then
    match index_of key (columns df) with
    | Some k =>
        inr (mkIndexed (index df) (columns df)
                       (map (fun rv => set_nth k (snd rv) (fst rv))
                            (combine (rows df) values)))
    | None =>
        inr (mkIndexed (index df) (columns df ++ [key])
                       (map (fun rv => fst rv ++ [snd rv])
                            (combine (rows df) values)))
    end
  else
    inl (ValueError (lit "Length of values (" ++ of_Z (Z.of_nat (List.length values))
                     ++ lit ") does not match length of index ("
                     ++ of_Z (Z.of_nat (len df)) ++ lit ")")).

Definition NAME : pystr := lit "Name".
Definition MONTH : pystr := lit "Month".
Definition UNICORN_NAME : pystr := lit "UnicornName".

(* ================================================================= *)
(** ** The browser page *)

(** The remote page behind Playwright, as a state [W] and the calls the
    program makes on it; each call may raise. *)
Class Page (W : Type) := {
  (** [async_playwright()], [chromium.launch], [new_context], [new_page]
      and [page.goto(UNICORN_URL, wait_until="networkidle")] *)
  open_page : W -> W * (Exn + unit);
  (** [page.get_by_placeholder("Enter your name").fill(text)] *)
  fill : pystr -> W -> W * (Exn + unit);
  (** [page.select_option('select', label=month_name)] *)
  select_option : pystr -> W -> W * (Exn + unit);
  (** [page.get_by_role("button", name="Get Unicorn Name").click()] *)
  click : W -> W * (Exn + unit);
  (** [page.locator("#lblUnicornName").wait_for(state="visible", timeout=10000)] *)
  wait_for : W -> W * (Exn + unit);
  (** [result_locator.inner_text()] *)
  inner_text : W -> W * (Exn + pystr);
  (** [browser.close()] *)
  close : W -> W * (Exn + unit)
}.

(* ================================================================= *)
(** ** The coroutine's state and its monad *)

Section Scraper.

Context {B : Builtins} {W : Type} {P : Page W}.

(** The page and the two lists [results] and [status_messages], which the
    loop body appends to before and after the point where it may raise. *)
Record Frame := mkFrame {
  world : W;
  results : list pystr;
  status_messages : list pystr
}.

Definition M (A : Type) : Type := Frame -> Frame * (Exn + A).

Definition ret {A} (a : A) : M A := fun s => (s, inr a).

Definition bind {A C} (m : M A) (k : A -> M C) : M C :=
  fun s => match m s with
           | (s', inr a) => k a s'
           | (s', inl e) => (s', inl e)
           end.

Definition raise {A} (e : Exn) : M A := fun s => (s, inl e).

(** [try: body except Exception as e: handler(e)] *)
Definition try_except {A} (body : M A) (handler : Exn -> M A) : M A :=
  fun s => match body s with
           | (s', inr a) => (s', inr a)
           | (s', inl e) => handler e s'
           end.

(** A pure step that may raise. *)
Definition pure {A} (r : Exn + A) : M A := fun s => (s, r).

(** An awaited call on the page. *)
Definition await {A} (op : W -> W * (Exn + A)) : M A :=
  fun s => let '(w, r) := op (world s) in
           (mkFrame w (results s) (status_messages s), r).

Definition results_append (x : pystr) : M unit :=
  fun s => (mkFrame (world s) (results s ++ [x]) (status_messages s), inr tt).

Definition status_append (x : pystr) : M unit :=
  fun s => (mkFrame (world s) (results s) (status_messages s ++ [x]), inr tt).

Notation "x <- m ;; k" := (bind m (fun x => k))
  (at level 61, m at next level, right associativity).
Notation "m ;;; k" := (bind m (fun _ => k))
  (at level 61, right associativity).

(* ================================================================= *)
(** ** [scrape_unicorn_names_async] *)

Definition RIGHT_ARROW : N := 8594%N.

(** [f"Processing row {i+1}/{total_rows}: {row.get('Name', 'N/A')}..."],
    [n] being the value of [i+1] *)
Definition processing_line (total_rows : nat) (n : Cell) (row : Series) : pystr :=
  lit "Processing row " ++ py_str n ++ lit "/"
  ++ of_Z (Z.of_nat total_rows) ++ lit ": "
  ++ match series_find NAME row with
     | Some v => py_str v
     | None => lit "N/A"
     end
  ++ lit "...".

(** [f"→ {cleaned}"] *)
Definition result_line (c : pystr) : pystr := [RIGHT_ARROW; SPACE] ++ c.

(** [f"Row {i+1} failed: {str(e)}"], [n] being the value of [i+1] *)
Definition failed_line (n : Cell) (e : Exn) : pystr :=
  lit "Row " ++ py_str n ++ lit " failed: " ++ exn_msg e.

(** [f"Error: {str(e)}"] *)
Definition error_cell (e : Exn) : pystr := lit "Error: " ++ exn_msg e.

(** [month_idx = int(row['Month']) - 1], the range check and
    [MONTHS[month_idx]] *)
Definition month_name_of (row : Series) : Exn + pystr :=
  match getitem row MONTH with
  | inl e => inl e
  | inr c =>
      match py_int c with
      | inl e => inl e
      | inr m =>
          let month_idx := m - 1 in
          if negb ((0 <=? month_idx) && (month_idx <=? 11))
          then inl (ValueError MONTH_MESSAGE)
          else inr (nth (Z.to_nat month_idx) MONTHS [])
      end
  end.

(** The body of the [try] for one row. *)
Definition row_body (total_rows : nat) (i : Label) (row : Series) : M unit :=
  (* progress = (i + 1) / total_rows *)
  pure (plus_one i) ;;;
  pure (if Nat.eqb total_rows 0
        then inl (ZeroDivisionError (lit "division by zero"))
        else inr tt) ;;;
  (* the f-string evaluates i+1 once more *)
  n <- pure (plus_one i) ;;
  status_append (processing_line total_rows n row) ;;;
  month_name <- pure (month_name_of row) ;;
  name_cell <- pure (getitem row NAME) ;;
  await (fill (py_str name_cell)) ;;;
  await (select_option month_name) ;;;
  await click ;;;
  await wait_for ;;;
  name <- await inner_text ;;
  results_append (cleaned name) ;;;
  status_append (result_line (cleaned name)).
  (* await asyncio.sleep(0.7): no effect on the page or on the lists *)

(** The [except Exception as e] clause.  Its second statement evaluates
    [i+1] outside any [try]: an exception there leaves the loop. *)
Definition row_except (i : Label) (e : Exn) : M unit :=
  results_append (error_cell e) ;;;
  n <- pure (plus_one i) ;;
  status_append (failed_line n e).

(** [for i, row in df.iterrows(): try: ... except Exception as e: ...] *)
Fixpoint for_rows (total_rows : nat) (it : list (Label * Series)) : M unit :=
  match it with
  | [] => ret tt
  | (i, row) :: rest =>
      try_except (row_body total_rows i row) (row_except i) ;;;
      for_rows total_rows rest
  end.

Definition scrape_body (df : DataFrame) : M (DataFrame * list pystr) :=
  await open_page ;;;
  for_rows (len df) (iterrows df) ;;;
  await close ;;;
  fun s =>
    (* df["UnicornName"] = results; return df, status_messages *)
    match setitem df UNICORN_NAME (map CStr (results s)) with
    | inl e => (s, inl e)
    | inr df' => (s, inr (df', status_messages s))
    end.

(** The coroutine, run from a page state [w] with both lists empty. *)
Definition scrape_unicorn_names_async (df : DataFrame) (w : W)
  : W * (Exn + (DataFrame * list pystr)) :=
  let '(s, r) := scrape_body df (mkFrame w [] []) in (world s, r).

End Scraper.

Arguments Frame W : clear implicits.
Arguments M W A : clear implicits.

(* ================================================================= *)
(** ** The worker thread and the Streamlit script *)

(** [st.session_state] *)
Record SessionState := mkSession {
  running : bool;
  output_df : option DataFrame;
  status_msgs : list pystr
}.

(** The values the script gives the three keys when they are absent. *)
Definition initial_session : SessionState := mkSession false None [].

(** What one run of the script shows or starts, in order. *)
Inductive Event :=
| StError (msg : pystr)          (* st.error *)
| StSuccess (msg : pystr)        (* st.success *)
| StPreview (head : list (list Cell)) (total : nat)
| Submit (df : DataFrame)        (* executor.submit(run_scraping_in_thread, df) *)
| StLog (msgs : list pystr)      (* the "Processing log" expander *)
| StResults (df : DataFrame).    (* the results table and its download *)

(** How a run of the script ends: at its last line, at [st.rerun()], at
    [st.stop()], or never, when leaving the [with ThreadPoolExecutor]
    block joins a worker that does not return. *)
Inductive Control := Done | Rerun | Stop | Blocked.

Definition TimeoutError : Exn := mkExn true [].

(** Whether a worker that takes [elapsed] seconds ([None]: it never
    returns) is done after [timeout] seconds. *)
Definition finished_by (timeout : Q) (elapsed : option Q) : bool :=
  match elapsed with
  | Some t => Qle_bool t timeout
  | None => false
  end.

(** [future.result(timeout=t)]: the worker's own outcome when it is there
    in time, [TimeoutError] otherwise. *)
Definition future_result {A} (timeout : Q) (elapsed : option Q)
  (outcome : Exn + A) : Exn + A :=
  if finished_by timeout elapsed then outcome else inl TimeoutError.

Definition TIMEOUT : Q := 900.

(** The emoji that opens the success message, U+1F389. *)
Definition PARTY_POPPER : N := 127881%N.

Definition TIMED_OUT_MESSAGE : pystr :=
  lit "Scraping timed out after 15 minutes.".

Definition failed_message (ex : Exn) : pystr :=
  lit "Scraping failed: " ++ exn_msg ex.

(** [required = {"Name", "Month"}]; a [set] of strings is iterated in an
    order that the interpreter's hashing decides. *)
Definition required (name_first : bool) : list pystr :=
  if name_first then [NAME; MONTH] else [MONTH; NAME].

(** [required.issubset(input_df.columns)] *)
Definition issubset (req cols : list pystr) : bool :=
  forallb (fun r => existsb (PyStr.eqb r) cols) req.

(** [f"CSV must have columns: {', '.join(required)}"] *)
Definition columns_message (name_first : bool) : pystr :=
  lit "CSV must have columns: " ++ join (lit ", ") (required name_first).

(** The results part at the end of the script. *)
Definition show_results (ss : SessionState) : list Event :=
  match output_df ss with
  | Some out => [StLog (status_msgs ss); StResults out]
  | None => []
  end.

Section Script.

Context {B : Builtins} {W : Type} {P : Page W}.

(** [run_scraping_in_thread]: a fresh event loop that runs the coroutine
    to its end. *)
Definition run_scraping_in_thread (df : DataFrame) (w : W)
  : W * (Exn + (DataFrame * list pystr)) :=
  scrape_unicorn_names_async df w.

(** The [if st.session_state.running:] block: submit the worker, wait at
    most 900 seconds, and handle the three outcomes. *)
Definition wait_for_worker (input_df : DataFrame) (w : W) (elapsed : option Q)
  (ss : SessionState) : SessionState * list Event * option Control :=
  match future_result TIMEOUT elapsed (snd (run_scraping_in_thread input_df w)) with
  | inr (out, msgs) =>
      (mkSession false (Some out) msgs,
       [Submit input_df; StSuccess ([PARTY_POPPER; SPACE] ++ lit "Scraping completed!")],
       Some Rerun)
  | inl ex =>
      (mkSession false (output_df ss) (status_msgs ss),
       [Submit input_df;
        StError (if exn_timeout ex then TIMED_OUT_MESSAGE else failed_message ex)],
       match elapsed with None => Some Blocked | Some _ => None end)
  end.

(** One run of the script.  [uploaded] is the uploaded file read by
    [pd.read_csv] ([None]: no file yet), [clicked] says that the start
    button was pressed, [w] and [elapsed] are the page the worker finds
    and the time it takes. *)
Definition script (name_first : bool) (uploaded : option (Exn + DataFrame))
  (clicked : bool) (w : W) (elapsed : option Q) (ss : SessionState)
  : SessionState * list Event * Control :=
  match uploaded with
  | None => (ss, [], Done)
  | Some (inl e) => (ss, [StError (lit "Error reading CSV: " ++ exn_msg e)], Done)
  | Some (inr input_df) =>
      if negb (issubset (required name_first) (columns input_df)) then
        (ss, [StError (columns_message name_first)], Stop)
      else
        let preview := StPreview (firstn 10 (rows input_df)) (len input_df) in
        (* a disabled button is never pressed *)
        if clicked && negb (running ss) then
          (mkSession true None [], [preview], Rerun)
        else if running ss then
          match wait_for_worker input_df w elapsed ss with
          | (ss', evs, Some c) => (ss', preview :: evs, c)
          | (ss', evs, None) => (ss', preview :: evs ++ show_results ss', Done)
          end
        else
          (ss, preview :: show_results ss, Done)
  end.

(** The session states the script can leave behind. *)
Inductive reachable : SessionState -> Prop :=
| reach_initial : reachable initial_session
| reach_run name_first uploaded clicked w elapsed ss :
    reachable ss ->
    reachable (fst (fst (script name_first uploaded clicked w elapsed ss))).

End Script.

(* ================================================================= *)
(** ** The loop, row by row *)

Section Outcomes.

Context {B : Builtins} {W : Type} {P : Page W}.

(** What the [try] body leaves for one row once its "Processing" line is
    logged: the page afterwards, and the cleaned label or the exception. *)
Definition row_outcome (row : Series) (w : W) : W * (Exn + pystr) :=
  match month_name_of row with
  | inl e => (w, inl e)
  | inr month_name =>
  match getitem row NAME with
  | inl e => (w, inl e)
  | inr name_cell =>
  match fill (py_str name_cell) w with
  | (w1, inl e) => (w1, inl e)
  | (w1, inr _) =>
  match select_option month_name w1 with
  | (w2, inl e) => (w2, inl e)
  | (w2, inr _) =>
  match click w2 with
  | (w3, inl e) => (w3, inl e)
  | (w3, inr _) =>
  match wait_for w3 with
  | (w4, inl e) => (w4, inl e)
  | (w4, inr _) =>
  match inner_text w4 with
  | (w5, inl e) => (w5, inl e)
  | (w5, inr name) => (w5, inr (cleaned name))
  end end end end end end end.

(** The outcomes of a run of rows, the page being handed from each row to
    the next. *)
Fixpoint outcomes (rs : list Series) (w : W) : W * list (Exn + pystr) :=
  match rs with
  | [] => (w, [])
  | r :: rest =>
      let '(w1, o) := row_outcome r w in
      let '(w2, os) := outcomes rest w1 in
      (w2, o :: os)
  end.

(** The [UnicornName] cell of an outcome. *)
Definition cell_of (o : Exn + pystr) : pystr :=
  match o with inr c => c | inl e => error_cell e end.

(** The value of [i+1] for a numeric label [i]. *)
Definition row_number (i : Label) : Cell :=
  match plus_one i with inr n => n | inl _ => CInt 0 end.

(** The second log line of an outcome, [n] being the value of [i+1]. *)
Definition line_of (n : Cell) (o : Exn + pystr) : pystr :=
  match o with inr c => result_line c | inl e => failed_line n e end.

Fixpoint log_of (total_rows : nat) (it : list (Label * Series))
  (os : list (Exn + pystr)) : list pystr :=
  match it, os with
  | (i, row) :: it', o :: os' =>
      processing_line total_rows (row_number i) row
      :: line_of (row_number i) o :: log_of total_rows it' os'
  | _, _ => []
  end.

(** The loop of the coroutine on a whole table, from a page [w]. *)
Definition run_loop (df : DataFrame) (w : W) : Frame W * (Exn + unit) :=
  for_rows (len df) (iterrows df) (mkFrame w [] []).

(** The message with which a [Month] cell is turned down, if it is. *)
Definition month_rejection (c : Cell) : option pystr :=
  match py_int c with
  | inl e => Some (exn_msg e)
  | inr m => if (1 <=? m) && (m <=? 12) then None else Some MONTH_MESSAGE
  end.

End Outcomes.

(** The reading of "integer-like, 1 to 12" the specification's data model
    gives for a [Month] cell: an integer, or a float with an integral
    value, between 1 and 12. *)
Definition spec_month_ok (c : Cell) : bool :=
  match c with
  | CInt m => (1 <=? m) && (m <=? 12)
  | CFloat (FFin q) =>
      Qeq_bool q (inject_Z (Qfloor q)) && (1 <=? Qfloor q) && (Qfloor q <=? 12)
  | _ => false
  end.

(** All labels an iterator yields are numeric. *)
Definition all_numeric (it : list (Label * Series)) : Prop :=
  Forall (fun x => numeric (fst x) = true) it.

(* ================================================================= *)
(** ** A stand-in page and interpreter for concrete runs *)

Module Demo.

Fixpoint digits (acc : Z) (s : pystr) : option Z :=
  match s with
  | [] => Some acc
  | c :: r =>
      if ((48 <=? c) && (c <=? 57))%N
      then digits (10 * acc + (Z.of_N c - 48)) r
      else None
  end.

(** A short decimal for a float with a whole value, [int()] on plain
    decimal digits, and an exact [x + 1]. *)
#[export] Instance builtins : Builtins := {
  repr_float q :=
    if Qeq_bool q (inject_Z (Qfloor q))
    then of_Z (Qfloor q) ++ lit ".0"
    else of_Z (Qfloor q) ++ lit ".5";
  int_of_str s :=
    match s, digits 0 s with
    | _ :: _, Some z => inr z
    | _, _ => inl (ValueError
                     (lit "invalid literal for int() with base 10: '" ++ s ++ lit "'"))
    end;
  float_plus_one q := FFin (q + 1)
}.

(** A page that remembers the typed name and the chosen month and shows
    them, padded, in its label; the label never appears for an empty
    name. *)
Definition World : Type := (pystr * pystr)%type.

#[export] Instance page : Page World := {
  open_page w := (w, inr tt);
  fill text w := ((text, snd w), inr tt);
  select_option label w := ((fst w, label), inr tt);
  click w := (w, inr tt);
  wait_for w :=
    match fst w with
    | [] => (w, inl (mkExn false (lit "Timeout 10000ms exceeded.")))
    | _ => (w, inr tt)
    end;
  inner_text w := (w, inr ([SPACE] ++ fst w ++ [NEWLINE] ++ snd w ++ [SPACE; SPACE]));
  close w := (w, inr tt)
}.

Definition blank : World := ([], []).

Definition cols : list pystr := [NAME; MONTH].

Definition ann : list Cell := [CStr (lit "Ann"); CInt 1].
Definition bob : list Cell := [CStr (lit "Bob"); CInt 12].
Definition zed : list Cell := [CStr (lit "Zed"); CInt 13].
Definition nan_month : list Cell := [CStr (lit "Eve"); CFloat FNan].
Definition no_name : list Cell := [CStr []; CInt 3].

Definition three_rows : DataFrame := mkDF cols ([ann] ++ zed :: [bob]).
Definition with_empty_name : DataFrame := mkDF cols ([ann] ++ no_name :: [bob]).

(** The table a user gets back and uploads again. *)
Definition uploaded_again : DataFrame :=
  mkDF [NAME; MONTH; UNICORN_NAME]
       [[CStr (lit "Ann"); CInt 1; CStr (lit "Old Name")]].

(** What [pd.read_csv] makes of the lines "Name,Month", "x,Ann,1" and
    "y,Bob,12": the data lines hold one field more than the header, and
    their first fields become the row labels. *)
Definition text_labels : DataFrame :=
  mkIndexed (Labelled [LStr (lit "x"); LStr (lit "y")]) cols [ann; bob].

(** The same with the lines "5,Ann,1" and "9,Zed,13". *)
Definition number_labels : DataFrame :=
  mkIndexed (Labelled [LInt 5; LInt 9]) cols [ann; zed].


End Demo.

(* ================================================================= *)
(** ** Two readings of the replacements *)

(** Replacing the one-character string ["\n"] is a character map. *)
Definition newline_to_space (c : N) : N := if (NEWLINE =? c)%N then SPACE else c.

(** The pairwise reading of [replace("  ", " ")]: a pair of spaces
    becomes one space and the scan resumes after the pair. *)
Fixpoint collapse (s : pystr) : pystr :=
  match s with
  | [] => []
  | a :: t =>
      match t with
      | [] => [a]
      | b :: r =>
          if ((SPACE =? a) && (SPACE =? b))%N
          then SPACE :: collapse r
          else a :: collapse t
      end
  end.


(* ================================================================= *)
(** ** Notions for further properties *)

(** The code points of a string that are not white space, in order. *)
Definition ink (s : pystr) : pystr := filter (fun c => negb (isspace c)) s.

(** Every row holds one cell per column, as in any [DataFrame]. *)
Definition rectangular (df : DataFrame) : Prop :=
  Forall (fun r => List.length r = List.length (columns df)) (rows df).

(** A stand-in for a machine whose browser cannot be started. *)
Module Offline.

Definition page : Page Demo.World := {|
  open_page w := (w, inl (mkExn false (lit "Executable doesn't exist")));
  fill text w := (w, inr tt);
  select_option label w := (w, inr tt);
  click w := (w, inr tt);
  wait_for w := (w, inr tt);
  inner_text w := (w, inr []);
  close w := (w, inr tt)
|}.

End Offline.


(* ================================================================= *)
(** * Properties *)

(** ** Strings *)

Section StringFacts.

Lemma eqb_eq (a b : pystr) : PyStr.eqb a b = true <-> a = b.
Proof.
  revert b; induction a as [|x a IH]; intros [|y b]; simpl; split;
    try congruence; try reflexivity.
  - intros H. apply andb_true_iff in H as [Hx Hr].
    apply N.eqb_eq in Hx. apply IH in Hr. now subst.
  - intros H. injection H as -> ->. rewrite N.eqb_refl. simpl. now apply IH.
Qed.

Lemma eqb_refl (a : pystr) : PyStr.eqb a a = true.
Proof. now apply eqb_eq. Qed.

Lemma eqb_neq (a b : pystr) : PyStr.eqb a b = false <-> a <> b.
Proof.
  split.
  - intros H E. apply eqb_eq in E. congruence.
  - intros H. destruct (PyStr.eqb a b) eqn:E; [|reflexivity].
    apply eqb_eq in E. contradiction.
Qed.

Lemma existsb_eqb_In (k : pystr) (l : list pystr) :
  existsb (PyStr.eqb k) l = true <-> In k l.
Proof.
  rewrite existsb_exists. split.
  - intros (x & Hx & E). apply eqb_eq in E. now subst.
  - intros H. exists k. split; [assumption | apply eqb_refl].
Qed.



Lemma lstrip_fixed (s : pystr) (c : N) :
  isspace c = false -> lstrip (c :: s) = c :: s.
Proof. intros H. simpl. now rewrite H. Qed.


(** A string that neither starts nor ends with a space is left alone. *)
Lemma strip_fixed (x y : N) (s : pystr) :
  isspace x = false -> isspace y = false ->
  strip (x :: s ++ [y]) = x :: s ++ [y].
Proof.
  intros Hx Hy. unfold strip, rstrip.
  rewrite (lstrip_fixed _ _ Hx).
  change (x :: s ++ [y]) with ((x :: s) ++ [y]).
  rewrite rev_app_distr.
  change (rev [y] ++ rev (x :: s)) with (y :: rev (x :: s)).
  rewrite (lstrip_fixed _ _ Hy).
  change (y :: rev (x :: s)) with ([y] ++ rev (x :: s)).
  rewrite rev_app_distr, rev_involutive. reflexivity.
Qed.


Lemma replace_newline (s : pystr) :
  replace [NEWLINE] [SPACE] s = map newline_to_space s.
Proof.
  unfold replace. induction s as [|c r IH]; [reflexivity|].
  change (replace_from [NEWLINE] [SPACE] 0 (c :: r))
    with (if ((NEWLINE =? c) && true)%N
          then [SPACE] ++ replace_from [NEWLINE] [SPACE] 0 r
          else c :: replace_from [NEWLINE] [SPACE] 0 r).
  change (map newline_to_space (c :: r))
    with (newline_to_space c :: map newline_to_space r).
  rewrite andb_true_r, IH.
  change (newline_to_space c) with (if (NEWLINE =? c)%N then SPACE else c).
  now destruct (NEWLINE =? c)%N.
Qed.

Lemma replace_collapse (s : pystr) :
  replace [SPACE; SPACE] [SPACE] s = collapse s.
Proof.
  unfold replace.
  enough (H : replace_from [SPACE; SPACE] [SPACE] 0 s = collapse s /\
              forall a, replace_from [SPACE; SPACE] [SPACE] 0 (a :: s)
                        = collapse (a :: s)) by apply H.
  induction s as [|b r [IH1 IH2]].
  - split; [reflexivity|]. intros a. simpl.
    rewrite andb_false_r. reflexivity.
  - split; [apply IH2|]. intros a.
    change (replace_from [SPACE; SPACE] [SPACE] 0 (a :: b :: r))
      with (if ((SPACE =? a) && ((SPACE =? b) && true))%N
            then [SPACE] ++ replace_from [SPACE; SPACE] [SPACE] 0 r
            else a :: replace_from [SPACE; SPACE] [SPACE] 0 (b :: r)).
    change (collapse (a :: b :: r))
      with (if ((SPACE =? a) && (SPACE =? b))%N
            then SPACE :: collapse r else a :: collapse (b :: r)).
    rewrite andb_true_r. rewrite IH1, (IH2 b). reflexivity.
Qed.

End StringFacts.

Section CleanedFacts.




Lemma newline_to_space_id (c : N) : isspace c = false -> newline_to_space c = c.
Proof.
  intros H. unfold newline_to_space.
  destruct (NEWLINE =? c)%N eqn:E; [|reflexivity].
  apply N.eqb_eq in E. subst c. discriminate H.
Qed.




Lemma collapse_step (a b : N) (r : pystr) :
  collapse (a :: b :: r) =
  if ((SPACE =? a) && (SPACE =? b))%N
  then SPACE :: collapse r else a :: collapse (b :: r).
Proof. reflexivity. Qed.


(** Induction two steps at a time, the way [collapse] consumes its input. *)
Lemma pair_induction (P : pystr -> Prop) :
  P [] -> (forall a, P [a]) ->
  (forall a b r, P r -> P (b :: r) -> P (a :: b :: r)) ->
  forall s, P s.
Proof.
  intros H0 H1 H2 s.
  enough (H : P s /\ forall a, P (a :: s)) by apply H.
  induction s as [|b r [IHa IHb]].
  - split; [exact H0 | exact H1].
  - split; [apply IHb|]. intros a. apply H2; [exact IHa | apply IHb].
Qed.



Lemma cleaned_pipeline (raw : pystr) :
  cleaned raw = collapse (map newline_to_space (strip raw)).
Proof. unfold cleaned. now rewrite replace_newline, replace_collapse. Qed.

(** A run of [n] spaces shrinks to [ceil(n/2)] spaces: every pair is
    replaced, and an odd last space stays. *)
Lemma collapse_spaces (n : nat) :
  collapse (repeat SPACE n) = repeat SPACE (Nat.div2 (S n)).
Proof.
  enough (H : collapse (repeat SPACE n) = repeat SPACE (Nat.div2 (S n)) /\
              collapse (repeat SPACE (S n)) = repeat SPACE (Nat.div2 (S (S n))))
    by apply H.
  induction n as [|n [IH1 IH2]].
  - split; reflexivity.
  - split; [exact IH2|].
    change (repeat SPACE (S (S n))) with (SPACE :: SPACE :: repeat SPACE n).
    rewrite collapse_step. rewrite N.eqb_refl. cbn [andb].
    rewrite IH1. reflexivity.
Qed.

Lemma collapse_spaces_then (n : nat) (y : N) :
  y <> SPACE ->
  collapse (repeat SPACE n ++ [y]) = repeat SPACE (Nat.div2 (S n)) ++ [y].
Proof.
  intros Hy.
  enough (H : collapse (repeat SPACE n ++ [y])
              = repeat SPACE (Nat.div2 (S n)) ++ [y] /\
              collapse (repeat SPACE (S n) ++ [y])
              = repeat SPACE (Nat.div2 (S (S n))) ++ [y]) by apply H.
  assert (Ey : (SPACE =? y)%N = false) by (apply N.eqb_neq; congruence).
  induction n as [|n [IH1 IH2]].
  - split; [reflexivity|].
    change (collapse [SPACE; y] = [SPACE; y]).
    rewrite collapse_step, Ey, andb_false_r. reflexivity.
  - split; [exact IH2|].
    change (repeat SPACE (S (S n)) ++ [y])
      with (SPACE :: SPACE :: (repeat SPACE n ++ [y])).
    rewrite collapse_step, N.eqb_refl. cbn [andb].
    rewrite IH1. reflexivity.
Qed.

End CleanedFacts.

(** ** The claims about the clean-up of a scraped label *)

Section CleanedClaims.

Lemma collapse_cons_other (a : N) (t : pystr) :
  a <> SPACE -> collapse (a :: t) = a :: collapse t.
Proof.
  intros Ha. destruct t as [|b r]; [reflexivity|].
  rewrite collapse_step.
  assert (E : (SPACE =? a)%N = false) by (apply N.eqb_neq; congruence).
  now rewrite E.
Qed.

Lemma not_space_neq (c : N) : isspace c = false -> c <> SPACE /\ c <> NEWLINE.
Proof. intros H; split; intros ->; discriminate H. Qed.



(** C10: [replace("  ", " ")] replaces every pair of spaces it meets from
    left to right, not only the first one: a run of [n] spaces becomes
    [ceil(n/2)] spaces, so four spaces inside a label leave two, and two
    separate double spaces are both collapsed. *)
Theorem double_spaces_all_replaced (x y : N) (n : nat) :
  isspace x = false -> isspace y = false ->
  replace [SPACE; SPACE] [SPACE] (repeat SPACE n) = repeat SPACE (Nat.div2 (S n))
  /\ cleaned (x :: repeat SPACE n ++ [y]) = x :: repeat SPACE (Nat.div2 (S n)) ++ [y]
  /\ cleaned (lit "a    b") = lit "a  b"
  /\ cleaned (lit "a  b  c") = lit "a b c".
Proof.
  intros Hx Hy.
  split; [rewrite replace_collapse; apply collapse_spaces|].
  split; [|split; reflexivity].
  rewrite cleaned_pipeline, (strip_fixed x y _ Hx Hy).
  destruct (not_space_neq x Hx) as [Hx1 _].
  destruct (not_space_neq y Hy) as [Hy1 _].
  change (map newline_to_space (x :: repeat SPACE n ++ [y]))
    with (newline_to_space x :: map newline_to_space (repeat SPACE n ++ [y])).
  rewrite map_app, map_repeat.
  change (map newline_to_space [y]) with [newline_to_space y].
  change (newline_to_space SPACE) with SPACE.
  rewrite (newline_to_space_id x Hx), (newline_to_space_id y Hy).
  rewrite (collapse_cons_other x _ Hx1).
  now rewrite (collapse_spaces_then n y Hy1).
Qed.

Lemma double_spaces_all_replaced_witness :
  cleaned (lit "a     b") = lit "a   b".
Proof.
  apply (double_spaces_all_replaced 97%N 98%N 5); reflexivity.
Defined.

End CleanedClaims.

(* ================================================================= *)
(** ** The loop *)

Section LoopFacts.

Context {B : Builtins} {W : Type} {P : Page W}.

Ltac frame_simpl := cbn [world results status_messages].

Ltac frame_done :=
  cbn [fst snd cell_of line_of world results status_messages];
  now rewrite <- app_assoc.

Lemma frame_eta (s : Frame W) :
  mkFrame (world s) (results s ++ []) (status_messages s ++ []) = s.
Proof. destruct s; simpl. now rewrite !app_nil_r. Qed.

Lemma numeric_plus_one (i : Label) :
  numeric i = true -> plus_one i = inr (row_number i).
Proof.
  unfold row_number.
  destruct i as [z|[|negative|q]|b|s|items]; try discriminate; reflexivity.
Qed.

Lemma plus_one_numeric (i : Label) (n : Cell) :
  plus_one i = inr n -> numeric i = true.
Proof. destruct i as [z|[|negative|q]|b|s|items]; try discriminate; reflexivity. Qed.

Lemma plus_one_raises (i : Label) :
  numeric i = false -> exists e, plus_one i = inl e.
Proof. destruct i as [z|f|b|s|items]; try discriminate; eexists; reflexivity. Qed.

(** One turn of the loop on a numeric label: the row's "Processing" line,
    then its outcome as one cell and one more line; nothing is raised. *)
Lemma try_row (total_rows : nat) (i : Label) (row : Series) (s : Frame W) :
  numeric i = true ->
  total_rows <> O ->
  try_except (row_body total_rows i row) (row_except i) s =
  (mkFrame (fst (row_outcome row (world s)))
           (results s ++ [cell_of (snd (row_outcome row (world s)))])
           (status_messages s
            ++ [processing_line total_rows (row_number i) row;
                line_of (row_number i) (snd (row_outcome row (world s)))]),
   inr tt).
Proof.
  intros Hi Ht. destruct total_rows as [|n]; [contradiction|].
  destruct s as [w rs ms].
  unfold try_except, row_body, row_except, row_outcome, bind, pure, await,
    status_append, results_append.
  rewrite (numeric_plus_one i Hi).
  cbn [Nat.eqb world results status_messages].
  destruct (month_name_of row) as [e|month_name]; [frame_done|].
  frame_simpl. destruct (getitem row NAME) as [e|name_cell]; [frame_done|].
  frame_simpl. destruct (fill (py_str name_cell) w) as [w1 [e|[]]]; [frame_done|].
  frame_simpl. destruct (select_option month_name w1) as [w2 [e|[]]]; [frame_done|].
  frame_simpl. destruct (click w2) as [w3 [e|[]]]; [frame_done|].
  frame_simpl. destruct (wait_for w3) as [w4 [e|[]]]; [frame_done|].
  frame_simpl. destruct (inner_text w4) as [w5 [e|name]]; frame_done.
Qed.

(** One turn of the loop on a label for which [i+1] raises: the [try]
    body raises at once, the handler stores the Error cell and raises the
    same exception again, which nothing catches. *)
Lemma try_row_raises (total_rows : nat) (i : Label) (row : Series)
  (s : Frame W) (e : Exn) :
  plus_one i = inl e ->
  try_except (row_body total_rows i row) (row_except i) s =
  (mkFrame (world s) (results s ++ [error_cell e]) (status_messages s), inl e).
Proof.
  intros Hi. destruct s as [w rs ms].
  unfold try_except, row_body, row_except, bind, pure, results_append.
  rewrite Hi. reflexivity.
Qed.

Lemma outcomes_cons (r : Series) (rest : list Series) (w : W) :
  outcomes (r :: rest) w =
  (fst (outcomes rest (fst (row_outcome r w))),
   snd (row_outcome r w) :: snd (outcomes rest (fst (row_outcome r w)))).
Proof.
  cbn [outcomes]. destruct (row_outcome r w) as [w1 o].
  cbn [fst snd]. now destruct (outcomes rest w1).
Qed.

Lemma outcomes_length (rs : list Series) :
  forall w, List.length (snd (outcomes rs w)) = List.length rs.
Proof.
  induction rs as [|r rest IH]; intros w; [reflexivity|].
  rewrite outcomes_cons. cbn [snd List.length]. now rewrite IH.
Qed.

Lemma outcomes_app (a b : list Series) :
  forall w,
    outcomes (a ++ b) w =
    (fst (outcomes b (fst (outcomes a w))),
     snd (outcomes a w) ++ snd (outcomes b (fst (outcomes a w)))).
Proof.
  induction a as [|r a IH]; intros w.
  - cbn [app outcomes fst snd]. now destruct (outcomes b w).
  - change ((r :: a) ++ b) with (r :: (a ++ b)).
    rewrite !outcomes_cons, IH. reflexivity.
Qed.

(** The whole loop over numeric labels: it ends normally, with one cell
    per row and the log of [log_of]. *)
Lemma for_rows_spec (total_rows : nat) (it : list (Label * Series)) :
  (it = [] \/ total_rows <> O) ->
  all_numeric it ->
  forall s,
    for_rows total_rows it s =
    (mkFrame (fst (outcomes (map snd it) (world s)))
             (results s ++ map cell_of (snd (outcomes (map snd it) (world s))))
             (status_messages s
              ++ log_of total_rows it (snd (outcomes (map snd it) (world s)))),
     inr tt).
Proof.
  intros Ht Hnum. induction it as [|[i row] rest IH]; intros s.
  - cbn. now rewrite frame_eta.
  - assert (Hn : total_rows <> O) by (destruct Ht as [Ht|Ht]; [discriminate|exact Ht]).
    inversion Hnum as [|x l Hi Hrest]; subst. cbn [fst] in Hi.
    cbn [for_rows]. unfold bind at 1.
    rewrite (try_row _ _ _ _ Hi Hn).
    rewrite IH by (now right || exact Hrest).
    cbn [map snd world results status_messages].
    rewrite outcomes_cons. cbn [fst snd map log_of].
    rewrite <- !app_assoc. reflexivity.
Qed.

Lemma for_rows_app (total_rows : nat) (a b : list (Label * Series)) :
  forall s : Frame W,
    for_rows total_rows (a ++ b) s =
    match for_rows total_rows a s with
    | (s', inr _) => for_rows total_rows b s'
    | (s', inl e) => (s', inl e)
    end.
Proof.
  induction a as [|[i row] a IH]; intros s; [reflexivity|].
  cbn [app for_rows]. unfold bind.
  destruct (try_except (row_body total_rows i row) (row_except i) s)
    as [s' [e|[]]]; [reflexivity | apply IH].
Qed.

(** A loop that ends normally has added one cell and two log lines for
    every row, whatever the labels. *)
Lemma for_rows_returned (total_rows : nat) (it : list (Label * Series)) :
  (it = [] \/ total_rows <> O) ->
  forall s s',
    for_rows total_rows it s = (s', inr tt) ->
    List.length (results s') = (List.length (results s) + List.length it)%nat
    /\ List.length (status_messages s')
       = (List.length (status_messages s) + 2 * List.length it)%nat.
Proof.
  intros Ht. induction it as [|[i row] rest IH]; intros s s' H.
  - cbn in H. injection H as <-. cbn [List.length]. lia.
  - assert (Hn : total_rows <> O) by (destruct Ht as [Ht|Ht]; [discriminate|exact Ht]).
    cbn [for_rows] in H. unfold bind at 1 in H.
    destruct (numeric i) eqn:Hi.
    + rewrite (try_row _ _ _ _ Hi Hn) in H.
      apply IH in H; [|now right].
      cbn [results status_messages] in H. rewrite !length_app in H.
      cbn [List.length] in *. lia.
    + destruct (plus_one_raises i Hi) as [e He].
      rewrite (try_row_raises _ _ _ _ _ He) in H. discriminate H.
Qed.

(** The first label on which [i+1] raises ends the loop: the rows before
    it have their cells and log lines, the row itself has its Error cell
    and no log line, the rows after it are not looked at. *)
Lemma for_rows_raised (total_rows : nat) (a b : list (Label * Series))
  (i : Label) (row : Series) (e : Exn) (s : Frame W) :
  total_rows <> O ->
  all_numeric a ->
  plus_one i = inl e ->
  for_rows total_rows (a ++ (i, row) :: b) s =
  (mkFrame (fst (outcomes (map snd a) (world s)))
           (results s ++ map cell_of (snd (outcomes (map snd a) (world s)))
            ++ [error_cell e])
           (status_messages s
            ++ log_of total_rows a (snd (outcomes (map snd a) (world s)))),
   inl e).
Proof.
  intros Hn Ha He.
  rewrite for_rows_app, (for_rows_spec _ _ (or_intror Hn) Ha).
  cbn [for_rows]. unfold bind at 1.
  rewrite (try_row_raises _ _ _ _ _ He).
  cbn [world results status_messages]. now rewrite <- app_assoc.
Qed.

Lemma values_length (df : DataFrame) : List.length (values df) = len df.
Proof.
  unfold values, len. destruct (values_are_float df); [apply length_map|reflexivity].
Qed.

Lemma iterrows_from_rows (idx : Index) (cols : list pystr) (vs : list (list Cell)) :
  forall k, map snd (iterrows_from k idx cols vs) = map (combine cols) vs.
Proof.
  induction vs as [|v rest IH]; intros k; [reflexivity|].
  cbn [iterrows_from map snd]. now rewrite IH.
Qed.

Lemma iterrows_from_length (idx : Index) (cols : list pystr) (vs : list (list Cell)) :
  forall k, List.length (iterrows_from k idx cols vs) = List.length vs.
Proof.
  induction vs as [|v rest IH]; intros k; [reflexivity|].
  cbn [iterrows_from List.length]. now rewrite IH.
Qed.

Lemma iterrows_from_nth (idx : Index) (cols : list pystr) (vs : list (list Cell)) :
  forall k j x,
    nth_error (iterrows_from k idx cols vs) j = Some x ->
    exists v, nth_error vs j = Some v
              /\ x = (label_at idx (k + j), combine cols v).
Proof.
  induction vs as [|v rest IH]; intros k j x H.
  - destruct j; discriminate.
  - destruct j as [|j].
    + injection H as <-. exists v. rewrite Nat.add_0_r. now split.
    + cbn [iterrows_from nth_error] in H.
      destruct (IH _ _ _ H) as (v' & Hv & ->).
      exists v'. split; [exact Hv|]. do 2 f_equal. lia.
Qed.

Lemma iterrows_length (df : DataFrame) : List.length (iterrows df) = len df.
Proof. unfold iterrows. now rewrite iterrows_from_length, values_length. Qed.

Lemma iterrows_series (df : DataFrame) :
  map snd (iterrows df) = map (combine (columns df)) (values df).
Proof. unfold iterrows. apply iterrows_from_rows. Qed.

Lemma iterrows_nth (df : DataFrame) (j : nat) (i : Label) (row : Series) :
  nth_error (iterrows df) j = Some (i, row) ->
  i = label_at (index df) j
  /\ (j < len df)%nat
  /\ exists v, nth_error (values df) j = Some v /\ row = combine (columns df) v.
Proof.
  intros H.
  assert (Hj : (j < len df)%nat).
  { rewrite <- iterrows_length. apply nth_error_Some. congruence. }
  unfold iterrows in H. apply iterrows_from_nth in H as (v & Hv & Hx).
  injection Hx as -> ->. split; [reflexivity|]. split; [exact Hj|].
  now exists v.
Qed.

Lemma numeric_index_iterrows (df : DataFrame) :
  numeric_index df = true -> all_numeric (iterrows df).
Proof.
  intros H. unfold numeric_index in H. rewrite forallb_forall in H.
  unfold all_numeric. apply Forall_forall. intros [i row] Hin.
  apply In_nth_error in Hin as [j Hj].
  apply iterrows_nth in Hj as (-> & Hlt & _).
  cbn [fst]. apply H. apply in_seq. lia.
Qed.

Lemma range_index_numeric (cols : list pystr) (rs : list (list Cell)) :
  numeric_index (mkDF cols rs) = true.
Proof. unfold numeric_index. apply forallb_forall. reflexivity. Qed.

(** A table with a row in it has a non-zero [len]. *)
Lemma loop_guard (df : DataFrame) : iterrows df = [] \/ len df <> O.
Proof.
  destruct (iterrows df) eqn:E; [now left|right].
  rewrite <- iterrows_length, E. discriminate.
Qed.

Lemma run_loop_spec (df : DataFrame) (w : W) :
  numeric_index df = true ->
  run_loop df w =
  (mkFrame (fst (outcomes (map snd (iterrows df)) w))
           (map cell_of (snd (outcomes (map snd (iterrows df)) w)))
           (log_of (len df) (iterrows df)
                   (snd (outcomes (map snd (iterrows df)) w))),
   inr tt).
Proof.
  intros H. unfold run_loop.
  now rewrite (for_rows_spec _ _ (loop_guard df) (numeric_index_iterrows df H)).
Qed.

Lemma log_of_length (total_rows : nat) (it : list (Label * Series)) :
  forall os, List.length os = List.length it ->
             List.length (log_of total_rows it os) = (2 * List.length it)%nat.
Proof.
  induction it as [|[i row] rest IH]; intros [|o os] H; try discriminate.
  - reflexivity.
  - cbn [log_of List.length]. cbn [List.length] in H.
    rewrite IH by congruence. lia.
Qed.

Lemma log_of_nth (total_rows : nat) (it : list (Label * Series)) :
  forall os k i row o,
    nth_error it k = Some (i, row) -> nth_error os k = Some o ->
    nth_error (log_of total_rows it os) (2 * k)
    = Some (processing_line total_rows (row_number i) row)
    /\ nth_error (log_of total_rows it os) (2 * k + 1)
       = Some (line_of (row_number i) o).
Proof.
  induction it as [|[j r] rest IH]; intros os k i row o Hi Ho.
  - destruct k; discriminate.
  - destruct os as [|o' os]; [destruct k; discriminate|].
    destruct k as [|k].
    + injection Hi as -> ->. injection Ho as ->. split; reflexivity.
    + cbn [nth_error] in Hi, Ho.
      destruct (IH os k i row o Hi Ho) as [H1 H2].
      replace (2 * S k)%nat with (S (S (2 * k))) by lia.
      replace (S (S (2 * k)) + 1)%nat with (S (S (2 * k + 1))) by lia.
      cbn [log_of nth_error]. now split.
Qed.

End LoopFacts.

(* ================================================================= *)
(** ** The coroutine as a whole *)

Section ScrapeFacts.

Context {B : Builtins} {W : Type} {P : Page W}.

Lemma run_loop_returned (df : DataFrame) (w : W) (s : Frame W) :
  run_loop df w = (s, inr tt) ->
  List.length (results s) = len df
  /\ List.length (status_messages s) = (2 * len df)%nat.
Proof.
  intros H. unfold run_loop in H.
  apply (for_rows_returned _ _ (loop_guard df)) in H.
  rewrite iterrows_length in H. cbn [results status_messages List.length] in H.
  lia.
Qed.

Lemma run_loop_results_length (df : DataFrame) (w : W) :
  numeric_index df = true ->
  List.length (results (fst (run_loop df w))) = len df.
Proof.
  intros H. apply (run_loop_returned df w).
  rewrite (run_loop_spec df w H). reflexivity.
Qed.

(** The coroutine is the loop between [open_page] and [close], followed
    by the column assignment; an exception that leaves the loop leaves the
    coroutine. *)
Lemma scrape_spec (df : DataFrame) (w : W) :
  scrape_unicorn_names_async df w =
  match open_page w with
  | (w1, inl e) => (w1, inl e)
  | (w1, inr _) =>
      match run_loop df w1 with
      | (s, inl e) => (world s, inl e)
      | (s, inr _) =>
          match close (world s) with
          | (w2, inl e) => (w2, inl e)
          | (w2, inr _) =>
              match setitem df UNICORN_NAME (map CStr (results s)) with
              | inl e => (w2, inl e)
              | inr df' => (w2, inr (df', status_messages s))
              end
          end
      end
  end.
Proof.
  unfold scrape_unicorn_names_async, scrape_body, bind, await.
  cbn [world results status_messages].
  destruct (open_page w) as [w1 [e|[]]]; [reflexivity|].
  fold (run_loop df w1).
  destruct (run_loop df w1) as [s [e|[]]]; [reflexivity|].
  destruct (close (world s)) as [w2 [e|[]]]; [reflexivity|].
  cbn [world results status_messages].
  now destruct (setitem _ _ _).
Qed.

(** With numeric labels the loop always ends normally. *)
Lemma scrape_spec_numeric (df : DataFrame) (w : W) :
  numeric_index df = true ->
  scrape_unicorn_names_async df w =
  match open_page w with
  | (w1, inl e) => (w1, inl e)
  | (w1, inr _) =>
      match close (world (fst (run_loop df w1))) with
      | (w2, inl e) => (w2, inl e)
      | (w2, inr _) =>
          match setitem df UNICORN_NAME
                        (map CStr (results (fst (run_loop df w1)))) with
          | inl e => (w2, inl e)
          | inr df' => (w2, inr (df', status_messages (fst (run_loop df w1))))
          end
      end
  end.
Proof.
  intros H. rewrite scrape_spec.
  destruct (open_page w) as [w1 [e|[]]]; [reflexivity|].
  rewrite (run_loop_spec df w1 H). reflexivity.
Qed.

Lemma index_of_None (k : pystr) (l : list pystr) :
  ~ In k l -> index_of k l = None.
Proof.
  induction l as [|c l IH]; intros H; [reflexivity|].
  cbn [index_of]. destruct (PyStr.eqb c k) eqn:E.
  - apply eqb_eq in E. subst c. exfalso. apply H. now left.
  - rewrite IH; [reflexivity|]. intros Hin. apply H. now right.
Qed.

Lemma index_of_Some (k : pystr) (l : list pystr) (n : nat) :
  index_of k l = Some n -> In k l.
Proof.
  revert n; induction l as [|c l IH]; intros n; [discriminate|].
  cbn [index_of]. destruct (PyStr.eqb c k) eqn:E.
  - apply eqb_eq in E. now left.
  - destruct (index_of k l) as [m|]; [|discriminate].
    intros _. right. now apply (IH m).
Qed.

(** One value per row is never refused by the assignment. *)
Lemma setitem_new (df : DataFrame) (key : pystr) (values : list Cell) :
  List.length values = len df -> ~ In key (columns df) ->
  setitem df key values =
  inr (mkIndexed (index df) (columns df ++ [key])
                 (map (fun rv => fst rv ++ [snd rv]) (combine (rows df) values))).
Proof.
  intros Hl Hk. unfold setitem.
  rewrite Hl, Nat.eqb_refl, (index_of_None _ _ Hk). reflexivity.
Qed.

Lemma nth_error_added (rs : list (list Cell)) :
  forall (cells : list pystr) k r,
    List.length cells = List.length rs ->
    nth_error rs k = Some r ->
    exists c, nth_error cells k = Some c
              /\ nth_error (map (fun rv => fst rv ++ [snd rv])
                                (combine rs (map CStr cells))) k
                 = Some (r ++ [CStr c]).
Proof.
  induction rs as [|x rs IH]; intros cells k r Hl Hk.
  - destruct k; discriminate.
  - destruct cells as [|c cells]; [discriminate|].
    destruct k as [|k].
    + injection Hk as ->. exists c. now split.
    + cbn [nth_error] in Hk. injection Hl as Hl.
      destruct (IH cells k r Hl Hk) as (c' & H1 & H2).
      exists c'. now split.
Qed.

Lemma cell_of_shape (o : Exn + pystr) (rs : list Series) (w : W) :
  In o (snd (outcomes rs w)) ->
  (exists raw, cell_of o = cleaned raw)
  \/ (exists msg, cell_of o = lit "Error: " ++ msg).
Proof.
  revert w; induction rs as [|r rest IH]; intros w; [intros []|].
  rewrite outcomes_cons. cbn [snd]. intros [H|H]; [|now apply (IH _ H)].
  subst o. unfold row_outcome.
  destruct (month_name_of r); [right; eexists; reflexivity|].
  destruct (getitem r NAME); [right; eexists; reflexivity|].
  destruct (fill _ w) as [w1 [e|[]]]; [right; eexists; reflexivity|].
  destruct (select_option _ w1) as [w2 [e|[]]]; [right; eexists; reflexivity|].
  destruct (click w2) as [w3 [e|[]]]; [right; eexists; reflexivity|].
  destruct (wait_for w3) as [w4 [e|[]]]; [right; eexists; reflexivity|].
  destruct (inner_text w4) as [w5 [e|name]]; [right; eexists; reflexivity|].
  left. now exists name.
Qed.

End ScrapeFacts.

(* ================================================================= *)
(** ** Claims about the output table *)

Section TableClaims.

Context {B : Builtins} {W : Type} {P : Page W}.

(** C3 (amended): when the row labels of the uploaded table are numbers,
    as they are with the default index, the table has no column called
    [UnicornName] yet and the browser opens and closes normally, the
    coroutine returns a table with the same number of rows, in the same
    order and with the original cells, and with the one column
    [UnicornName] added last; each of its cells is a cleaned label or a
    text starting with "Error: ". *)
Theorem output_table_shape (df : DataFrame) (w w1 w2 : W) :
  numeric_index df = true ->
  ~ In UNICORN_NAME (columns df) ->
  open_page w = (w1, inr tt) ->
  close (world (fst (run_loop df w1))) = (w2, inr tt) ->
  exists df' log,
    scrape_unicorn_names_async df w = (w2, inr (df', log))
    /\ columns df' = columns df ++ [UNICORN_NAME]
    /\ len df' = len df
    /\ forall k r,
         nth_error (rows df) k = Some r ->
         exists c,
           nth_error (rows df') k = Some (r ++ [CStr c])
           /\ ((exists raw, c = cleaned raw)
               \/ (exists msg, c = lit "Error: " ++ msg)).
Proof.
  intros Hnum Hnew Hopen Hclose.
  assert (Hlen : List.length (map CStr (results (fst (run_loop df w1)))) = len df)
    by (rewrite length_map; now apply run_loop_results_length).
  rewrite (scrape_spec_numeric df w Hnum), Hopen, Hclose,
    (setitem_new _ _ _ Hlen Hnew).
  eexists. eexists. split; [reflexivity|]. split; [reflexivity|]. split.
  - unfold len at 1. cbn [rows]. rewrite length_map, length_combine.
    fold (len df). rewrite Hlen. apply Nat.min_id.
  - intros k r Hk. cbn [rows].
    destruct (nth_error_added (rows df) (results (fst (run_loop df w1))) k r
                (run_loop_results_length df w1 Hnum) Hk) as (c & Hc & Hrow).
    exists c. split; [exact Hrow|].
    revert Hc. rewrite (run_loop_spec df w1 Hnum). cbn [fst results]. intros Hc.
    apply nth_error_In in Hc. apply in_map_iff in Hc as (o & <- & Ho).
    eapply cell_of_shape. exact Ho.
Qed.

(** C8: a table with no rows is not an error.  The loop does nothing, and
    once the browser has opened and closed the coroutine returns a table
    with no rows, which has the column [UnicornName], and an empty log. *)
Theorem empty_table_is_not_an_error (cols : list pystr) (w w1 w2 : W) :
  open_page w = (w1, inr tt) ->
  close w1 = (w2, inr tt) ->
  run_loop (mkDF cols []) w1 = (mkFrame w1 [] [], inr tt)
  /\ exists df',
       scrape_unicorn_names_async (mkDF cols []) w = (w2, inr (df', []))
       /\ rows df' = []
       /\ In UNICORN_NAME (columns df').
Proof.
  intros Hopen Hclose.
  assert (Hloop : run_loop (mkDF cols []) w1 = (mkFrame w1 [] [], inr tt)).
  { unfold run_loop, iterrows, values, mkDF. cbn [rows].
    now destruct (values_are_float _). }
  split; [exact Hloop|].
  rewrite scrape_spec, Hopen, Hloop. cbn [world results map].
  rewrite Hclose. unfold setitem, mkDF.
  cbn [len rows List.length Nat.eqb columns combine map status_messages].
  destruct (index_of UNICORN_NAME cols) as [k|] eqn:E.
  - eexists. split; [reflexivity|]. split; [reflexivity|].
    cbn [columns]. now apply (index_of_Some _ _ k).
  - eexists. split; [reflexivity|]. split; [reflexivity|].
    cbn [columns]. apply in_or_app. right. now left.
Qed.

End TableClaims.

(* ================================================================= *)
(** ** Claims about a failing row *)

Section RowClaims.

Context {B : Builtins} {W : Type} {P : Page W}.

Lemma month_name_of_int (row : Series) (m : Z) :
  series_find MONTH row = Some (CInt m) ->
  month_name_of row =
  if (1 <=? m) && (m <=? 12)
  then inr (nth (Z.to_nat (m - 1)) MONTHS [])
  else inl (ValueError MONTH_MESSAGE).
Proof.
  intros H. unfold month_name_of, getitem. rewrite H. cbn [py_int].
  destruct (Z.leb_spec 1 m), (Z.leb_spec m 12),
    (Z.leb_spec 0 (m - 1)), (Z.leb_spec (m - 1) 11); try lia; reflexivity.
Qed.

Lemma row_outcome_month_error (row : Series) (e : Exn) (w : W) :
  month_name_of row = inl e -> row_outcome row w = (w, inl e).
Proof. intros H. unfold row_outcome. now rewrite H. Qed.

(** C6: the month number selects its name in [MONTHS] counting from one:
    1 gives "January" and 12 gives "December"; a number below 1 or above
    12, such as 0 or 13, makes the row fail with "Month must be 1–12"
    and leaves the page untouched. *)
Theorem month_mapping (row : Series) (m : Z) :
  series_find MONTH row = Some (CInt m) ->
  (m = 1 -> month_name_of row = inr (lit "January"))
  /\ (m = 12 -> month_name_of row = inr (lit "December"))
  /\ (1 <= m <= 12 ->
        month_name_of row = inr (nth (Z.to_nat (m - 1)) MONTHS []))
  /\ (m < 1 \/ 12 < m ->
        month_name_of row = inl (ValueError MONTH_MESSAGE)
        /\ forall n i (s : Frame W),
             try_except (row_body (S n) (LInt i) row) (row_except (LInt i)) s =
             (mkFrame (world s)
                      (results s ++ [lit "Error: " ++ MONTH_MESSAGE])
                      (status_messages s
                       ++ [processing_line (S n) (CInt (i + 1)) row;
                           lit "Row " ++ of_Z (i + 1) ++ lit " failed: "
                           ++ MONTH_MESSAGE]),
              inr tt)).
Proof.
  intros H. pose proof (month_name_of_int row m H) as E.
  split; [|split; [|split]].
  - intros ->. exact E.
  - intros ->. exact E.
  - intros Hm. rewrite E.
    destruct (Z.leb_spec 1 m), (Z.leb_spec m 12); try lia; reflexivity.
  - intros Hm.
    assert (E' : month_name_of row = inl (ValueError MONTH_MESSAGE)).
    { rewrite E. destruct (Z.leb_spec 1 m), (Z.leb_spec m 12); try lia; reflexivity. }
    split; [exact E'|]. intros n i s.
    rewrite (try_row (S n) (LInt i) row s eq_refl) by discriminate.
    rewrite (row_outcome_month_error _ _ _ E'). reflexivity.
Qed.

Lemma rejection_outcome (row : Series) (c : Cell) (msg : pystr) (w : W) :
  series_find MONTH row = Some c ->
  month_rejection c = Some msg ->
  exists e, row_outcome row w = (w, inl e) /\ exn_msg e = msg.
Proof.
  intros Hc Hr. unfold month_rejection in Hr.
  unfold row_outcome, month_name_of, getitem. rewrite Hc.
  destruct (py_int c) as [e|m].
  - injection Hr as <-. now exists e.
  - destruct (Z.leb_spec 1 m), (Z.leb_spec m 12),
      (Z.leb_spec 0 (m - 1)), (Z.leb_spec (m - 1) 11);
      try lia; try discriminate; cbn [andb negb] in *;
      injection Hr as <-; now exists (ValueError MONTH_MESSAGE).
Qed.

Lemma index_of_In (k : pystr) (l : list pystr) :
  In k l -> exists n, index_of k l = Some n.
Proof.
  intros H. destruct (index_of k l) as [n|] eqn:E; [now exists n|].
  exfalso. revert H E. induction l as [|c l IH]; intros H E; [exact H|].
  cbn [index_of] in E. destruct (PyStr.eqb c k) eqn:Ec; [discriminate|].
  destruct (index_of k l); [discriminate|].
  destruct H as [H|H]; [|now apply IH].
  subst c. now rewrite eqb_refl in Ec.
Qed.

Lemma set_nth_series (key : pystr) (v : Cell) (cols : list pystr) :
  forall k r,
    index_of key cols = Some k ->
    List.length r = List.length cols ->
    series_find key (combine cols (set_nth k v r)) = Some v
    /\ forall l, l <> key ->
                 series_find l (combine cols (set_nth k v r))
                 = series_find l (combine cols r).
Proof.
  induction cols as [|c cols IH]; intros k r Hk Hl; [discriminate|].
  destruct r as [|x r]; [discriminate|].
  injection Hl as Hl. cbn [index_of] in Hk.
  destruct (PyStr.eqb c key) eqn:Ec.
  - injection Hk as <-. cbn [set_nth combine series_find]. rewrite Ec.
    split; [reflexivity|]. intros l Hne.
    apply eqb_eq in Ec. subst c.
    assert (E : PyStr.eqb key l = false) by (apply eqb_neq; congruence).
    now rewrite E.
  - destruct (index_of key cols) as [k'|] eqn:Ek; [|discriminate].
    injection Hk as <-. cbn [set_nth combine series_find]. rewrite Ec.
    destruct (IH k' r eq_refl Hl) as [H1 H2].
    split; [exact H1|]. intros l Hne.
    destruct (PyStr.eqb c l); [reflexivity | now apply H2].
Qed.

Lemma series_find_appended (key : pystr) (v : Cell) (cols : list pystr) :
  forall r,
    ~ In key cols ->
    List.length r = List.length cols ->
    series_find key (combine (cols ++ [key]) (r ++ [v])) = Some v.
Proof.
  induction cols as [|c cols IH]; intros r Hk Hl.
  - destruct r; [|discriminate]. cbn. now rewrite eqb_refl.
  - destruct r as [|x r]; [discriminate|]. injection Hl as Hl.
    cbn [app combine series_find].
    assert (E : PyStr.eqb c key = false).
    { apply eqb_neq. intros ->. apply Hk. now left. }
    rewrite E. apply IH; [|exact Hl]. intros Hin. apply Hk. now right.
Qed.

Lemma nth_error_replaced (k : nat) (rs : list (list Cell)) :
  forall (cells : list pystr) i r,
    List.length cells = List.length rs ->
    nth_error rs i = Some r ->
    exists c, nth_error cells i = Some c
              /\ nth_error (map (fun rv => set_nth k (snd rv) (fst rv))
                                (combine rs (map CStr cells))) i
                 = Some (set_nth k (CStr c) r).
Proof.
  induction rs as [|x rs IH]; intros cells i r Hl Hi.
  - destruct i; discriminate.
  - destruct cells as [|c cells]; [discriminate|].
    destruct i as [|i].
    + injection Hi as ->. exists c. now split.
    + cbn [nth_error] in Hi. injection Hl as Hl.
      destruct (IH cells i r Hl Hi) as (c' & H1 & H2).
      exists c'. now split.
Qed.

Lemma rectangular_row (df : DataFrame) (k : nat) (r : list Cell) :
  rectangular df -> nth_error (rows df) k = Some r ->
  List.length r = List.length (columns df).
Proof.
  intros Hrect Hk. unfold rectangular in Hrect. rewrite Forall_forall in Hrect.
  apply Hrect. now apply (nth_error_In _ k).
Qed.

(** The assignment puts the k-th value into [row["UnicornName"]] of the
    k-th row, whether the column is new or was there. *)
Lemma setitem_cell (df : DataFrame) (key : pystr) (cells : list pystr) :
  rectangular df ->
  List.length cells = len df ->
  exists df',
    setitem df key (map CStr cells) = inr df'
    /\ forall k c,
         nth_error cells k = Some c ->
         exists r', nth_error (rows df') k = Some r'
                    /\ series_find key (combine (columns df') r') = Some (CStr c).
Proof.
  intros Hrect Hl. unfold setitem. rewrite length_map, Hl, Nat.eqb_refl.
  destruct (index_of key (columns df)) as [j|] eqn:E.
  - eexists. split; [reflexivity|]. intros k c Hc. cbn [rows columns].
    destruct (nth_error (rows df) k) as [r|] eqn:Hr.
    2:{ apply nth_error_None in Hr.
        assert ((k < List.length cells)%nat) by (apply nth_error_Some; congruence).
        unfold len in Hl. lia. }
    destruct (nth_error_replaced j (rows df) cells k r Hl Hr) as (c' & Hc' & Hrow).
    assert (c' = c) by congruence. subst c'.
    exists (set_nth j (CStr c) r). split; [exact Hrow|].
    apply set_nth_series; [exact E|]. now apply (rectangular_row df k).
  - eexists. split; [reflexivity|]. intros k c Hc. cbn [rows columns].
    destruct (nth_error (rows df) k) as [r|] eqn:Hr.
    2:{ apply nth_error_None in Hr.
        assert ((k < List.length cells)%nat) by (apply nth_error_Some; congruence).
        unfold len in Hl. lia. }
    destruct (nth_error_added (rows df) cells k r Hl Hr) as (c' & Hc' & Hrow).
    assert (c' = c) by congruence. subst c'.
    exists (r ++ [CStr c]). split; [exact Hrow|].
    apply series_find_appended; [|now apply (rectangular_row df k)].
    intros Hin. apply index_of_In in Hin as [n Hn]. congruence.
Qed.

(** C1 (amended): in a table whose row labels are numbers, as they are
    with the default index, a row whose [Month] converts with [int()] to a
    number outside 1..12 gets exactly "Error: Month must be 1–12" in its
    [UnicornName] cell; a row whose [Month] cannot be converted gets
    "Error: " followed by the message of the conversion.  Either way the
    failing row does not touch the page, and the cells of all other rows
    are the ones the loop gives them when it passes over that row. *)
Theorem bad_month_fails_alone (df : DataFrame)
  (before after : list (Label * Series)) (i : Label) (row : Series)
  (c : Cell) (msg : pystr) (w w1 w2 : W) :
  numeric_index df = true ->
  rectangular df ->
  iterrows df = before ++ (i, row) :: after ->
  series_find MONTH row = Some c ->
  month_rejection c = Some msg ->
  open_page w = (w1, inr tt) ->
  close (world (fst (run_loop df w1))) = (w2, inr tt) ->
  (forall m, py_int c = inr m -> msg = MONTH_MESSAGE)
  /\ (exists df' log r',
        scrape_unicorn_names_async df w = (w2, inr (df', log))
        /\ nth_error (rows df') (List.length before) = Some r'
        /\ series_find UNICORN_NAME (combine (columns df') r')
           = Some (CStr (lit "Error: " ++ msg)))
  /\ results (fst (run_loop df w1))
     = firstn (List.length before)
              (results (fst (for_rows (len df) (before ++ after)
                                      (mkFrame w1 [] []))))
       ++ [lit "Error: " ++ msg]
       ++ skipn (List.length before)
                (results (fst (for_rows (len df) (before ++ after)
                                        (mkFrame w1 [] []))))
  /\ world (fst (run_loop df w1))
     = world (fst (for_rows (len df) (before ++ after) (mkFrame w1 [] []))).
Proof.
  intros Hnum Hrect Hit Hc Hr Hopen Hclose.
  pose proof (numeric_index_iterrows df Hnum) as Hall. rewrite Hit in Hall.
  assert (Hn : len df <> O).
  { rewrite <- iterrows_length, Hit, length_app. cbn [List.length]. lia. }
  assert (Hall' : all_numeric (before ++ after)).
  { unfold all_numeric in *. apply Forall_app in Hall as [Ha Hb].
    apply Forall_app. split; [exact Ha|]. now inversion Hb. }
  (* the cells with and without the row *)
  set (a := outcomes (map snd before) w1).
  destruct (rejection_outcome row c msg (fst a) Hc Hr) as (e & He & Hmsg).
  assert (Hwith : run_loop df w1
                  = (mkFrame (fst (outcomes (map snd after) (fst a)))
                             (map cell_of (snd a) ++ [lit "Error: " ++ msg]
                              ++ map cell_of (snd (outcomes (map snd after) (fst a))))
                             (status_messages (fst (run_loop df w1))),
                     inr tt)).
  { rewrite (run_loop_spec df w1 Hnum). cbn [fst status_messages].
    rewrite Hit, map_app. cbn [map snd].
    rewrite outcomes_app, outcomes_cons. fold a. rewrite He. cbn [fst snd].
    rewrite map_app. cbn [map cell_of]. unfold error_cell. rewrite Hmsg.
    reflexivity. }
  assert (Hwithout : for_rows (len df) (before ++ after) (mkFrame w1 [] [])
                     = (mkFrame (fst (outcomes (map snd after) (fst a)))
                                (map cell_of (snd a)
                                 ++ map cell_of (snd (outcomes (map snd after) (fst a))))
                                (log_of (len df) (before ++ after)
                                        (snd (outcomes (map snd (before ++ after)) w1))),
                        inr tt)).
  { rewrite (for_rows_spec _ _ (or_intror Hn) Hall').
    cbn [world results status_messages app].
    rewrite map_app, outcomes_app. fold a. cbn [fst snd].
    now rewrite map_app. }
  assert (Ha : List.length (map cell_of (snd a)) = List.length before)
    by (unfold a; now rewrite length_map, outcomes_length, length_map).
  split; [|split; [|split]].
  - intros m Hm. unfold month_rejection in Hr. rewrite Hm in Hr.
    destruct ((1 <=? m) && (m <=? 12)); [discriminate|]. now injection Hr.
  - destruct (setitem_cell df UNICORN_NAME (results (fst (run_loop df w1))) Hrect
                (run_loop_results_length df w1 Hnum)) as (df' & Hset & Hcell).
    destruct (Hcell (List.length before) (lit "Error: " ++ msg)) as (r' & Hr1 & Hr2).
    { rewrite Hwith. cbn [fst results].
      rewrite nth_error_app2 by lia. rewrite Ha, Nat.sub_diag. reflexivity. }
    exists df', (status_messages (fst (run_loop df w1))), r'.
    rewrite (scrape_spec_numeric df w Hnum), Hopen, Hclose, Hset.
    split; [reflexivity|]. now split.
  - rewrite Hwith, Hwithout. cbn [fst results]. rewrite <- Ha.
    rewrite firstn_app, firstn_all, Nat.sub_diag, firstn_O, app_nil_r.
    rewrite skipn_app, skipn_all, Nat.sub_diag, skipn_O. reflexivity.
  - rewrite Hwith, Hwithout. reflexivity.
Qed.

End RowClaims.

(* ================================================================= *)
(** ** Claims about the Streamlit script *)

Section ScriptClaims.

Context {B : Builtins} {W : Type} {P : Page W}.

Lemma issubset_required (name_first : bool) (cols : list pystr) :
  issubset (required name_first) cols = true <-> In NAME cols /\ In MONTH cols.
Proof.
  unfold issubset.
  destruct name_first; cbn [required forallb];
    rewrite !andb_true_iff, !existsb_eqb_In; tauto.
Qed.

(** C7: when [Name] or [Month] is missing from the uploaded table, the
    script shows one error that names both columns and stops there: the
    session is left as it was and no worker is started, so no row is
    processed. *)
Theorem missing_column_stops_the_script (name_first clicked : bool)
  (df : DataFrame) (w : W) (elapsed : option Q) (ss : SessionState) :
  ~ In NAME (columns df) \/ ~ In MONTH (columns df) ->
  script name_first (Some (inr df)) clicked w elapsed ss
  = (ss, [StError (columns_message name_first)], Stop)
  /\ contains (columns_message name_first) NAME = true
  /\ contains (columns_message name_first) MONTH = true.
Proof.
  intros Hmiss. split; [|now destruct name_first].
  unfold script.
  destruct (issubset (required name_first) (columns df)) eqn:E; [|reflexivity].
  apply issubset_required in E. tauto.
Qed.

(** While a batch is marked as running, the session holds neither a table
    nor a log. *)
Lemma running_session_is_clear (ss : SessionState) :
  reachable ss -> running ss = true ->
  output_df ss = None /\ status_msgs ss = [].
Proof.
  induction 1 as [|name_first uploaded clicked w elapsed ss Hss IH];
    [discriminate|].
  unfold script.
  destruct uploaded as [[e|input_df]|]; cbn [fst]; try exact IH.
  destruct (negb (issubset _ _)); cbn [fst]; [exact IH|].
  destruct (clicked && negb (running ss)); cbn [fst running output_df status_msgs];
    [now split|].
  destruct (running ss) eqn:Er; cbn [fst]; [|intros H; congruence].
  unfold wait_for_worker.
  destruct (future_result _ _ _) as [ex|[out msgs]].
  - destruct elapsed; cbn [fst running]; discriminate.
  - cbn [fst running]. discriminate.
Qed.

Lemma timed_out_message_differs (ex : Exn) :
  TIMED_OUT_MESSAGE <> failed_message ex.
Proof.
  unfold TIMED_OUT_MESSAGE, failed_message. intros H.
  vm_compute in H. discriminate H.
Qed.

(** C4: when the worker is not done after the 900 seconds, the running
    script shows the time-out error, whose text no "Scraping failed"
    error can have, shows no table, and leaves the session not running and
    without an output table. *)
Theorem timeout_is_reported_apart (name_first clicked : bool)
  (df : DataFrame) (w : W) (elapsed : option Q) (ss : SessionState) :
  reachable ss ->
  running ss = true ->
  issubset (required name_first) (columns df) = true ->
  finished_by TIMEOUT elapsed = false ->
  script name_first (Some (inr df)) clicked w elapsed ss
  = (mkSession false None [],
     [StPreview (firstn 10 (rows df)) (len df);
      Submit df;
      StError TIMED_OUT_MESSAGE],
     match elapsed with None => Blocked | Some _ => Done end)
  /\ forall ex, TIMED_OUT_MESSAGE <> failed_message ex.
Proof.
  intros Hreach Hrun Hcols Hlate.
  split; [|apply timed_out_message_differs].
  destruct (running_session_is_clear ss Hreach Hrun) as [Hout Hmsgs].
  unfold script, wait_for_worker, future_result.
  rewrite Hcols, Hrun, Hlate, andb_false_r. cbn [negb exn_timeout TimeoutError].
  rewrite Hout, Hmsgs.
  destruct elapsed; reflexivity.
Qed.

End ScriptClaims.
(* ================================================================= *)
(** ** More on the clean-up of a label *)

Section CleanedMore.

Lemma ink_cons (c : N) (s : pystr) :
  ink (c :: s) = if isspace c then ink s else c :: ink s.
Proof. unfold ink. cbn [filter]. now destruct (isspace c). Qed.

Lemma ink_lstrip (s : pystr) : ink (lstrip s) = ink s.
Proof.
  induction s as [|c r IH]; [reflexivity|].
  cbn [lstrip]. destruct (isspace c) eqn:E; [|reflexivity].
  now rewrite ink_cons, E.
Qed.

Lemma ink_rev (s : pystr) : ink (rev s) = rev (ink s).
Proof.
  induction s as [|c r IH]; [reflexivity|].
  cbn [rev]. unfold ink in *. rewrite filter_app, IH. cbn [filter].
  destruct (negb (isspace c)); cbn [rev app]; [reflexivity|].
  now rewrite app_nil_r.
Qed.

Lemma ink_strip (s : pystr) : ink (strip s) = ink s.
Proof.
  unfold strip, rstrip.
  now rewrite ink_rev, ink_lstrip, ink_rev, rev_involutive, ink_lstrip.
Qed.

Lemma isspace_newline_to_space (c : N) :
  isspace (newline_to_space c) = isspace c.
Proof.
  unfold newline_to_space. destruct (NEWLINE =? c)%N eqn:E; [|reflexivity].
  apply N.eqb_eq in E. now subst c.
Qed.

Lemma ink_map_newline (s : pystr) : ink (map newline_to_space s) = ink s.
Proof.
  induction s as [|c r IH]; [reflexivity|].
  cbn [map]. rewrite !ink_cons, isspace_newline_to_space, IH.
  destruct (isspace c) eqn:E; [reflexivity|].
  now rewrite (newline_to_space_id c E).
Qed.

Lemma ink_collapse (s : pystr) : ink (collapse s) = ink s.
Proof.
  induction s as [| a | a b r IHr IHbr] using pair_induction;
    try reflexivity.
  rewrite collapse_step.
  destruct ((SPACE =? a) && (SPACE =? b))%N eqn:E.
  - apply andb_true_iff in E as [Ea Eb].
    apply N.eqb_eq in Ea, Eb. subst a b.
    rewrite !ink_cons. cbn [isspace]. exact IHr.
  - rewrite (ink_cons a (collapse (b :: r))), IHbr. now rewrite <- ink_cons.
Qed.

Lemma lstrip_length (s : pystr) : (List.length (lstrip s) <= List.length s)%nat.
Proof.
  induction s as [|c r IH]; [reflexivity|].
  cbn [lstrip]. destruct (isspace c); cbn [List.length]; lia.
Qed.

Lemma strip_length (s : pystr) : (List.length (strip s) <= List.length s)%nat.
Proof.
  unfold strip, rstrip. rewrite length_rev.
  pose proof (lstrip_length (rev (lstrip s))) as H1.
  pose proof (lstrip_length s) as H2.
  rewrite length_rev in H1. lia.
Qed.

Lemma collapse_length (s : pystr) :
  (List.length (collapse s) <= List.length s)%nat.
Proof.
  induction s as [| a | a b r IHr IHbr] using pair_induction;
    try reflexivity.
  rewrite collapse_step.
  destruct ((SPACE =? a) && (SPACE =? b))%N; cbn [List.length] in *; lia.
Qed.

(** X1: the clean-up only ever removes or rewrites white space: the other
    characters of the scraped label all come through, in their order, and
    the result is never longer than the label. *)
Theorem cleaned_keeps_the_ink (raw : pystr) :
  ink (cleaned raw) = ink raw
  /\ (List.length (cleaned raw) <= List.length raw)%nat.
Proof.
  rewrite cleaned_pipeline. split.
  - now rewrite ink_collapse, ink_map_newline, ink_strip.
  - pose proof (collapse_length (map newline_to_space (strip raw))) as H1.
    pose proof (strip_length raw) as H2.
    rewrite length_map in H1. lia.
Qed.

Lemma map_newline_fixed (s : pystr) :
  ~ In NEWLINE s -> map newline_to_space s = s.
Proof.
  induction s as [|c r IH]; intros H; [reflexivity|].
  cbn [map]. rewrite IH by (intros Hin; apply H; now right).
  unfold newline_to_space. destruct (NEWLINE =? c)%N eqn:E; [|reflexivity].
  apply N.eqb_eq in E. exfalso. apply H. now left.
Qed.

Lemma contains_cons (a : N) (t p : pystr) :
  contains (a :: t) p = startswith (a :: t) p || contains t p.
Proof. reflexivity. Qed.

Lemma collapse_fixed (s : pystr) :
  contains s [SPACE; SPACE] = false -> collapse s = s.
Proof.
  induction s as [|a t IH]; intros H; [reflexivity|].
  destruct t as [|b r]; [reflexivity|].
  rewrite contains_cons in H. apply orb_false_iff in H as [Hs Hc].
  rewrite collapse_step.
  change (startswith (a :: b :: r) [SPACE; SPACE])
    with ((SPACE =? a) && ((SPACE =? b) && true))%N in Hs.
  rewrite andb_true_r in Hs. rewrite Hs, (IH Hc). reflexivity.
Qed.

(** X2: a label that has no white space around it, no newline and no two
    spaces in a row is stored exactly as it was scraped. *)
Theorem cleaned_leaves_clean_labels (s : pystr) :
  strip s = s ->
  ~ In NEWLINE s ->
  contains s [SPACE; SPACE] = false ->
  cleaned s = s.
Proof.
  intros Hstrip Hnl Hdbl.
  now rewrite cleaned_pipeline, Hstrip, (map_newline_fixed s Hnl),
    (collapse_fixed s Hdbl).
Qed.

End CleanedMore.

(* ================================================================= *)
(** ** More on the loop *)

Section LoopMore.

Context {B : Builtins} {W : Type} {P : Page W}.

Lemma part_guard (df : DataFrame) (a b : list (Label * Series)) :
  iterrows df = a ++ b ->
  (a = [] \/ len df <> O) /\ (b = [] \/ len df <> O).
Proof.
  intros H. destruct (loop_guard df) as [E|E].
  - rewrite H in E. apply app_eq_nil in E as [-> ->]. split; now left.
  - split; now right.
Qed.

Lemma part_numeric (df : DataFrame) (a b : list (Label * Series)) :
  numeric_index df = true -> iterrows df = a ++ b ->
  all_numeric a /\ all_numeric b.
Proof.
  intros Hnum H. pose proof (numeric_index_iterrows df Hnum) as Hall.
  rewrite H in Hall. now apply Forall_app in Hall.
Qed.

(** X3: the loop composes over the parts of a table with numeric row
    labels.  When its rows are those of [a] followed by those of [b], the
    cells are the cells the loop gives [a], followed by the cells it gives
    [b] when the first row of [b] finds the page as the last row of [a]
    left it; nothing else of [a] reaches [b]. *)
Theorem batches_compose (df : DataFrame) (a b : list (Label * Series)) (w : W) :
  numeric_index df = true ->
  iterrows df = a ++ b ->
  results (fst (run_loop df w))
  = results (fst (for_rows (len df) a (mkFrame w [] [])))
    ++ results (fst (for_rows (len df) b
                      (mkFrame (world (fst (for_rows (len df) a (mkFrame w [] []))))
                               [] [])))
  /\ world (fst (run_loop df w))
     = world (fst (for_rows (len df) b
                     (mkFrame (world (fst (for_rows (len df) a (mkFrame w [] []))))
                              [] []))).
Proof.
  intros Hnum Hit.
  destruct (part_guard df a b Hit) as [Ga Gb].
  destruct (part_numeric df a b Hnum Hit) as [Na Nb].
  rewrite (run_loop_spec df w Hnum), Hit.
  rewrite (for_rows_spec _ _ Ga Na). cbn [fst world results app].
  rewrite (for_rows_spec _ _ Gb Nb). cbn [fst world results app].
  rewrite map_app, outcomes_app. cbn [fst snd].
  rewrite map_app. split; reflexivity.
Qed.

Lemma row_outcome_value (r : Series) (w : W) (v : pystr) :
  snd (row_outcome r w) = inr v -> exists raw, v = cleaned raw.
Proof.
  unfold row_outcome.
  destruct (month_name_of r); [discriminate|].
  destruct (getitem r NAME); [discriminate|].
  destruct (fill _ w) as [w1 [e|[]]]; [discriminate|].
  destruct (select_option _ w1) as [w2 [e|[]]]; [discriminate|].
  destruct (click w2) as [w3 [e|[]]]; [discriminate|].
  destruct (wait_for w3) as [w4 [e|[]]]; [discriminate|].
  destruct (inner_text w4) as [w5 [e|name]]; [discriminate|].
  cbn [snd]. intros H. injection H as <-. now exists name.
Qed.

Lemma outcomes_value (rs : list Series) (v : pystr) :
  forall w, In (inr v) (snd (outcomes rs w)) -> exists raw, v = cleaned raw.
Proof.
  induction rs as [|r rest IH]; intros w; [intros []|].
  rewrite outcomes_cons. cbn [snd]. intros [H|H].
  - now apply (row_outcome_value r w).
  - now apply (IH _ H).
Qed.

(** The outcome of row [k] exists as soon as the row does. *)
Lemma outcome_at (df : DataFrame) (w : W) (k : nat) (x : Label * Series) :
  nth_error (iterrows df) k = Some x ->
  exists o, nth_error (snd (outcomes (map snd (iterrows df)) w)) k = Some o.
Proof.
  intros Hk.
  destruct (nth_error (snd (outcomes (map snd (iterrows df)) w)) k) as [o|] eqn:Ho;
    [now exists o|].
  apply nth_error_None in Ho. rewrite outcomes_length, length_map in Ho.
  assert ((k < List.length (iterrows df))%nat) by (apply nth_error_Some; congruence).
  lia.
Qed.

(** X4: in a table with numeric row labels, the cell of a row and the
    row's second log line say the same thing: a cleaned label [v] in the
    cell goes with the line "→ v", and a cell "Error: m" goes with the
    line "Row n failed: m" for the same message [m], [n] being the row's
    label plus one. *)
Theorem cell_and_log_agree (df : DataFrame) (w : W) (k : nat)
  (i : Label) (row : Series) :
  numeric_index df = true ->
  nth_error (iterrows df) k = Some (i, row) ->
  (exists raw,
     nth_error (results (fst (run_loop df w))) k = Some (cleaned raw)
     /\ nth_error (status_messages (fst (run_loop df w))) (2 * k + 1)
        = Some ([RIGHT_ARROW; SPACE] ++ cleaned raw))
  \/ (exists n msg,
        plus_one i = inr n
        /\ nth_error (results (fst (run_loop df w))) k = Some (lit "Error: " ++ msg)
        /\ nth_error (status_messages (fst (run_loop df w))) (2 * k + 1)
           = Some (lit "Row " ++ py_str n ++ lit " failed: " ++ msg)).
Proof.
  intros Hnum Hk. rewrite (run_loop_spec df w Hnum).
  cbn [fst results status_messages].
  destruct (outcome_at df w k _ Hk) as [o Ho].
  destruct (log_of_nth (len df) (iterrows df) _ k _ _ o Hk Ho) as [_ H2].
  rewrite H2, (map_nth_error cell_of _ _ Ho).
  destruct o as [e|v].
  - right. exists (row_number i), (exn_msg e). split; [|split; reflexivity].
    apply numeric_plus_one.
    pose proof (numeric_index_iterrows df Hnum) as Hall.
    unfold all_numeric in Hall. rewrite Forall_forall in Hall.
    apply (Hall (i, row)). now apply (nth_error_In _ k).
  - left. apply nth_error_In in Ho.
    destruct (outcomes_value _ v w Ho) as [raw ->].
    exists raw. split; reflexivity.
Qed.

(** X19: in a table with numeric row labels the log holds exactly two
    lines for every row, and the first of the two is the "Processing row
    n/total: name..." line, [n] being the row's label plus one and
    [total] the number of rows. *)
Theorem log_two_lines_per_row (df : DataFrame) (w : W) :
  numeric_index df = true ->
  List.length (status_messages (fst (run_loop df w))) = (2 * len df)%nat
  /\ forall k i row,
       nth_error (iterrows df) k = Some (i, row) ->
       exists n,
         plus_one i = inr n
         /\ nth_error (status_messages (fst (run_loop df w))) (2 * k)
            = Some (lit "Processing row " ++ py_str n ++ lit "/"
                    ++ of_Z (Z.of_nat (len df)) ++ lit ": "
                    ++ match series_find NAME row with
                       | Some v => py_str v
                       | None => lit "N/A"
                       end
                    ++ lit "...").
Proof.
  intros Hnum. split.
  - apply (run_loop_returned df w). now rewrite (run_loop_spec df w Hnum).
  - intros k i row Hk. rewrite (run_loop_spec df w Hnum).
    cbn [fst status_messages].
    destruct (outcome_at df w k _ Hk) as [o Ho].
    destruct (log_of_nth (len df) (iterrows df) _ k _ _ o Hk Ho) as [H1 _].
    exists (row_number i). split; [|exact H1].
    apply numeric_plus_one.
    pose proof (numeric_index_iterrows df Hnum) as Hall.
    unfold all_numeric in Hall. rewrite Forall_forall in Hall.
    apply (Hall (i, row)). now apply (nth_error_In _ k).
Qed.

Lemma series_find_absent (k : pystr) (cols : list pystr) :
  ~ In k cols -> forall r, series_find k (combine cols r) = None.
Proof.
  induction cols as [|c cols IH]; intros H r; [reflexivity|].
  destruct r as [|x r]; [reflexivity|].
  cbn [combine series_find].
  destruct (PyStr.eqb c k) eqn:E.
  - apply eqb_eq in E. exfalso. apply H. now left.
  - apply IH. intros Hin. apply H. now right.
Qed.

Lemma iterrows_absent (df : DataFrame) (key : pystr) (row : Series) :
  ~ In key (columns df) -> In row (map snd (iterrows df)) ->
  series_find key row = None.
Proof.
  intros Hk Hin. rewrite iterrows_series in Hin.
  apply in_map_iff in Hin as (v & <- & _). now apply series_find_absent.
Qed.

(** Rows that fail before the first call on the page leave it alone. *)
Lemma outcomes_untouched (f : Series -> Exn + pystr) (rs : list Series) (w : W) :
  (forall r, In r rs -> forall w', row_outcome r w' = (w', f r)) ->
  outcomes rs w = (w, map f rs).
Proof.
  induction rs as [|r rest IH]; intros H; [reflexivity|].
  rewrite outcomes_cons, (H r (or_introl eq_refl)). cbn [fst snd].
  rewrite IH by (intros r' Hr'; apply H; now right). reflexivity.
Qed.

(** X5: called on a table with numeric row labels and without a [Month]
    column, the coroutine still goes through all rows: every cell is
    "Error: 'Month'" and the page is never used. *)
Theorem missing_month_column_fails_every_row (df : DataFrame) (w : W) :
  numeric_index df = true ->
  ~ In MONTH (columns df) ->
  results (fst (run_loop df w)) = repeat (lit "Error: 'Month'") (len df)
  /\ world (fst (run_loop df w)) = w.
Proof.
  intros Hnum Hm. rewrite (run_loop_spec df w Hnum). cbn [fst results world].
  rewrite (outcomes_untouched (fun _ => inl (KeyError MONTH))).
  - cbn [fst snd]. split; [|reflexivity].
    rewrite !map_map, <- iterrows_length.
    induction (iterrows df) as [|x rest IH]; [reflexivity|].
    cbn [map List.length repeat]. now rewrite IH.
  - intros r Hr w'. unfold row_outcome, month_name_of, getitem.
    now rewrite (iterrows_absent df MONTH r Hm Hr).
Qed.

(** X6: called on a table with numeric row labels and without a [Name]
    column, the coroutine logs "N/A" as the name of every row and fails
    every row before the page is used: with the month's own error when the
    month is bad, with "Error: 'Name'" otherwise. *)
Theorem missing_name_column_fails_every_row (df : DataFrame) (w : W) :
  numeric_index df = true ->
  ~ In NAME (columns df) ->
  world (fst (run_loop df w)) = w
  /\ forall k i row n,
       nth_error (iterrows df) k = Some (i, row) ->
       plus_one i = inr n ->
       nth_error (status_messages (fst (run_loop df w))) (2 * k)
       = Some (lit "Processing row " ++ py_str n ++ lit "/"
               ++ of_Z (Z.of_nat (len df)) ++ lit ": N/A...")
       /\ nth_error (results (fst (run_loop df w))) k
          = Some (match month_name_of row with
                  | inl e => lit "Error: " ++ exn_msg e
                  | inr _ => lit "Error: 'Name'"
                  end).
Proof.
  intros Hnum Hn. rewrite (run_loop_spec df w Hnum).
  cbn [fst results world status_messages].
  set (f := fun row : Series =>
              match month_name_of row with
              | inl e => inl e
              | inr _ => inl (KeyError NAME)
              end : Exn + pystr).
  rewrite (outcomes_untouched f).
  2:{ intros row Hr w'. unfold row_outcome, f, getitem.
      rewrite (iterrows_absent df NAME row Hn Hr).
      now destruct (month_name_of row). }
  cbn [fst snd]. split; [reflexivity|]. intros k i row n Hk Hi.
  assert (Hrow : nth_error (map snd (iterrows df)) k = Some row)
    by (now rewrite (map_nth_error snd _ _ Hk)).
  assert (Ho : nth_error (map f (map snd (iterrows df))) k = Some (f row))
    by (now apply map_nth_error).
  destruct (log_of_nth (len df) (iterrows df) _ k _ _ _ Hk Ho) as [H1 _].
  assert (Hnumber : row_number i = n) by (unfold row_number; now rewrite Hi).
  split.
  - rewrite H1, Hnumber. unfold processing_line.
    rewrite (iterrows_absent df NAME row Hn); [reflexivity|].
    apply in_map_iff. exists (i, row). split; [reflexivity|].
    now apply (nth_error_In _ k).
  - rewrite (map_nth_error cell_of _ _ Ho). unfold f.
    now destruct (month_name_of row).
Qed.

(** X17: a row label on which [i+1] raises, a text or a tuple, ends the
    batch.  The rows before it are processed; the row itself gets its
    Error cell in [results] and no log line; the exception then leaves the
    [except] clause, the loop and the coroutine, the browser is not
    closed, and no table is returned. *)
Theorem text_label_ends_the_batch (df : DataFrame)
  (before after : list (Label * Series)) (i : Label) (row : Series) (w w1 : W) :
  iterrows df = before ++ (i, row) :: after ->
  all_numeric before ->
  numeric i = false ->
  open_page w = (w1, inr tt) ->
  exists e,
    plus_one i = inl e
    /\ scrape_unicorn_names_async df w
       = (world (fst (for_rows (len df) before (mkFrame w1 [] []))), inl e)
    /\ results (fst (run_loop df w1))
       = results (fst (for_rows (len df) before (mkFrame w1 [] [])))
         ++ [lit "Error: " ++ exn_msg e]
    /\ status_messages (fst (run_loop df w1))
       = status_messages (fst (for_rows (len df) before (mkFrame w1 [] []))).
Proof.
  intros Hit Hbefore Hi Hopen.
  destruct (plus_one_raises i Hi) as [e He]. exists e. split; [exact He|].
  assert (Hn : len df <> O).
  { rewrite <- iterrows_length, Hit, length_app. cbn [List.length]. lia. }
  assert (Hloop := for_rows_raised (len df) before after i row e
                     (mkFrame w1 [] []) Hn Hbefore He).
  rewrite <- Hit in Hloop. fold (run_loop df w1) in Hloop.
  rewrite scrape_spec, Hopen, Hloop.
  rewrite (for_rows_spec _ _ (or_intror Hn) Hbefore).
  cbn [fst world results status_messages app]. now repeat split.
Qed.

(** X18: in a table with numeric row labels, an exception raised in the
    [try] body of a row does not stop the batch.  The row's cell becomes
    "Error: " and the message, the log gets "Row n failed: " and the
    message, the loop goes on with the next row from the page as the
    failed row left it, and in the end there is one cell for every row. *)
Theorem row_exception_is_caught (df : DataFrame)
  (before after : list (Label * Series)) (i : Label) (row : Series)
  (n : Cell) (w : W) (s1 : Frame W) (e : Exn) :
  numeric_index df = true ->
  iterrows df = before ++ (i, row) :: after ->
  plus_one i = inr n ->
  row_body (len df) i row (fst (for_rows (len df) before (mkFrame w [] [])))
  = (s1, inl e) ->
  run_loop df w
  = for_rows (len df) after
             (mkFrame (world s1)
                      (results s1 ++ [lit "Error: " ++ exn_msg e])
                      (status_messages s1
                       ++ [lit "Row " ++ py_str n ++ lit " failed: " ++ exn_msg e]))
  /\ snd (run_loop df w) = inr tt
  /\ nth_error (results (fst (run_loop df w))) (List.length before)
     = Some (lit "Error: " ++ exn_msg e)
  /\ nth_error (status_messages (fst (run_loop df w))) (2 * List.length before + 1)
     = Some (lit "Row " ++ py_str n ++ lit " failed: " ++ exn_msg e)
  /\ List.length (results (fst (run_loop df w))) = len df.
Proof.
  intros Hnum Hit Hi Hbody.
  assert (Hn : len df <> O).
  { rewrite <- iterrows_length, Hit, length_app. cbn [List.length]. lia. }
  destruct (part_numeric df before ((i, row) :: after) Hnum Hit) as [Nb Nrest].
  assert (Nafter : all_numeric after) by (now inversion Nrest).
  set (s0 := fst (for_rows (len df) before (mkFrame w [] []))) in *.
  assert (Hpre : for_rows (len df) before (mkFrame w [] []) = (s0, inr tt)).
  { unfold s0. now rewrite (for_rows_spec _ _ (or_intror Hn) Nb). }
  assert (Hs0 : List.length (results s0) = List.length before
                /\ List.length (status_messages s0) = (2 * List.length before)%nat).
  { destruct (for_rows_returned _ _ (or_intror Hn) _ _ Hpre) as [H1 H2].
    cbn [results status_messages List.length] in H1, H2. lia. }
  destruct Hs0 as [Hres0 Hlog0].
  set (s2 := mkFrame (world s1) (results s1 ++ [error_cell e])
                     (status_messages s1 ++ [failed_line n e])).
  assert (Htry : try_except (row_body (len df) i row) (row_except i) s0
                 = (s2, inr tt)).
  { unfold try_except. rewrite Hbody.
    unfold row_except, bind, pure, results_append, status_append.
    rewrite Hi. reflexivity. }
  pose proof (try_row (len df) i row s0 (plus_one_numeric i n Hi) Hn) as Hspec.
  rewrite Htry in Hspec. injection Hspec as _ Hr Hl.
  assert (Hres1 : List.length (results s1) = List.length before).
  { apply (f_equal (@List.length pystr)) in Hr.
    rewrite !length_app in Hr. cbn [List.length] in Hr. lia. }
  assert (Hlog1 : List.length (status_messages s1)
                  = (2 * List.length before + 1)%nat).
  { apply (f_equal (@List.length pystr)) in Hl.
    rewrite !length_app in Hl. cbn [List.length] in Hl. lia. }
  assert (Hrun : run_loop df w = for_rows (len df) after s2).
  { unfold run_loop. rewrite Hit, for_rows_app, Hpre.
    cbn [for_rows]. unfold bind at 1. rewrite Htry. reflexivity. }
  split; [exact Hrun|].
  split; [now rewrite (run_loop_spec df w Hnum)|].
  split; [|split; [|now apply run_loop_results_length]].
  - rewrite Hrun, (for_rows_spec _ _ (or_intror Hn) Nafter).
    cbn [fst results]. unfold s2 at 1. cbn [results].
    rewrite <- app_assoc, nth_error_app2 by lia.
    rewrite Hres1, Nat.sub_diag. reflexivity.
  - rewrite Hrun, (for_rows_spec _ _ (or_intror Hn) Nafter).
    cbn [fst status_messages]. unfold s2 at 1. cbn [status_messages].
    rewrite <- app_assoc, nth_error_app2 by lia.
    rewrite Hlog1, Nat.sub_diag. reflexivity.
Qed.




End LoopMore.

(* ================================================================= *)
(** ** More on the month *)

Section MonthMore.

Context {B : Builtins}.

Lemma floor_ge (n : Z) (q : Q) : (inject_Z n <= q)%Q <-> n <= Qfloor q.
Proof.
  split; intros H.
  - assert (Hlt : (inject_Z n < inject_Z (Qfloor q + 1))%Q)
      by (eapply Qle_lt_trans; [exact H | apply Qlt_floor]).
    rewrite <- Zlt_Qlt in Hlt. lia.
  - eapply Qle_trans; [|apply Qfloor_le]. now rewrite <- Zle_Qle.
Qed.

Lemma ceiling_le (n : Z) (q : Q) : (q <= inject_Z n)%Q <-> Qceiling q <= n.
Proof.
  split; intros H.
  - assert (Hlt : (inject_Z (Qceiling q - 1) < inject_Z n)%Q)
      by (eapply Qlt_le_trans; [apply Qceiling_lt | exact H]).
    rewrite <- Zlt_Qlt in Hlt. lia.
  - eapply Qle_trans; [apply Qle_ceiling|]. now rewrite <- Zle_Qle.
Qed.

Lemma Qle_bool_spec (x y : Q) : reflect (x <= y)%Q (Qle_bool x y).
Proof.
  destruct (Qle_bool x y) eqn:E; constructor.
  - now apply Qle_bool_iff.
  - intros H. apply Qle_bool_iff in H. congruence.
Qed.

Lemma Qle_bool_floor (n : Z) (q : Q) :
  Qle_bool (inject_Z n) q = (n <=? Qfloor q).
Proof.
  destruct (Qle_bool_spec (inject_Z n) q) as [H|H], (Z.leb_spec n (Qfloor q));
    try reflexivity.
  - apply floor_ge in H. lia.
  - exfalso. apply H. apply floor_ge. assumption.
Qed.

(** X7: a [Month] that pandas read as a float is cut to its whole part by
    [int()]: every finite value from 1 up to, but not including, 13 is
    accepted and selects [MONTHS[floor - 1]], so 3.9 is March and 12.9 is
    December; every other finite value is turned down with
    "Month must be 1–12". *)
Theorem float_month_is_truncated (row : Series) (q : Q) :
  series_find MONTH row = Some (CFloat (FFin q)) ->
  month_name_of row =
  if Qle_bool 1 q && negb (Qle_bool 13 q)
  then inr (nth (Z.to_nat (Qfloor q - 1)) MONTHS [])
  else inl (ValueError MONTH_MESSAGE).
Proof.
  intros H. unfold month_name_of, getitem. rewrite H.
  cbn [py_int]. unfold truncate.
  change 1%Q with (inject_Z 1). change 13%Q with (inject_Z 13).
  change 0%Q with (inject_Z 0).
  rewrite (Qle_bool_floor 1), (Qle_bool_floor 13).
  destruct (Qle_bool_spec (inject_Z 0) q) as [H0|H0].
  - apply floor_ge in H0.
    destruct (Z.leb_spec 0 (Qfloor q - 1)), (Z.leb_spec (Qfloor q - 1) 11),
      (Z.leb_spec 1 (Qfloor q)), (Z.leb_spec 13 (Qfloor q));
      cbn [andb negb]; try lia; reflexivity.
  - assert (Hf : Qfloor q < 0).
    { destruct (Z.lt_ge_cases (Qfloor q) 0) as [Hlt|Hge]; [exact Hlt|].
      exfalso. apply H0. now apply floor_ge. }
    assert (Hc : Qceiling q <= 0).
    { apply ceiling_le. now apply Qlt_le_weak, Qnot_le_lt. }
    destruct (Z.leb_spec 0 (Qceiling q - 1)), (Z.leb_spec 1 (Qfloor q));
      cbn [andb negb]; try lia; reflexivity.
Qed.

Lemma months_distinct : NoDup MONTHS.
Proof.
  unfold MONTHS.
  repeat (constructor;
          [ intros H; cbn [In] in H;
            repeat (destruct H as [H|H]; [vm_compute in H; discriminate H|]);
            exact H
          | ]).
  constructor.
Qed.

(** X8: the twelve names are all different, so two valid month numbers
    that select the same option of the page are the same number. *)
Theorem month_names_are_distinct (r1 r2 : Series) (m1 m2 : Z) :
  series_find MONTH r1 = Some (CInt m1) ->
  series_find MONTH r2 = Some (CInt m2) ->
  1 <= m1 <= 12 -> 1 <= m2 <= 12 ->
  month_name_of r1 = month_name_of r2 ->
  m1 = m2.
Proof.
  intros H1 H2 Hm1 Hm2.
  unfold month_name_of, getitem. rewrite H1, H2. cbn [py_int].
  destruct (Z.leb_spec 0 (m1 - 1)), (Z.leb_spec (m1 - 1) 11); try lia.
  destruct (Z.leb_spec 0 (m2 - 1)), (Z.leb_spec (m2 - 1) 11); try lia.
  cbn [andb negb]. intros E. injection E as E.
  assert (Hi : Z.to_nat (m1 - 1) = Z.to_nat (m2 - 1)).
  { apply (proj1 (NoDup_nth MONTHS []) months_distinct); cbn [MONTHS List.length];
      [lia | lia | exact E]. }
  lia.
Qed.

End MonthMore.

(* ================================================================= *)
(** ** More on the coroutine and the column it writes *)

Section ScrapeMore.

Context {B : Builtins} {W : Type} {P : Page W}.

Lemma combine_map_length (A : Type) (f : list Cell * Cell -> A)
  (rs : list (list Cell)) (vals : list Cell) :
  List.length vals = List.length rs ->
  List.length (map f (combine rs vals)) = List.length rs.
Proof. intros H. rewrite length_map, length_combine, H. apply Nat.min_id. Qed.

(** The assignment of one value per row succeeds; the column is there
    afterwards, in its old place when it existed. *)
Lemma setitem_ok (df : DataFrame) (key : pystr) (values : list Cell) :
  List.length values = len df ->
  exists df',
    setitem df key values = inr df'
    /\ In key (columns df')
    /\ len df' = len df
    /\ (In key (columns df) -> columns df' = columns df).
Proof.
  intros Hl. unfold setitem. rewrite Hl, Nat.eqb_refl.
  destruct (index_of key (columns df)) as [k|] eqn:E.
  - eexists. split; [reflexivity|]. cbn [columns]. split; [|split].
    + now apply (index_of_Some _ _ k).
    + unfold len at 1. cbn [rows]. now apply combine_map_length.
    + reflexivity.
  - eexists. split; [reflexivity|]. cbn [columns]. split; [|split].
    + apply in_or_app. right. now left.
    + unfold len at 1. cbn [rows]. now apply combine_map_length.
    + intros Hin. apply index_of_In in Hin as [n Hn]. congruence.
Qed.

Lemma results_as_cells_length (df : DataFrame) (w : W) :
  numeric_index df = true ->
  List.length (map CStr (results (fst (run_loop df w)))) = len df.
Proof. intros H. rewrite length_map. now apply run_loop_results_length. Qed.

(** X9: on a table with numeric row labels the coroutine raises only when
    opening or closing the browser raises, and then with that very
    exception; whatever happens in the rows, it otherwise returns a table
    with as many rows as it was given, together with the log of the
    loop. *)
Theorem coroutine_raises_only_at_open_or_close (df : DataFrame) (w : W) :
  numeric_index df = true ->
  (exists w1 e,
     open_page w = (w1, inl e)
     /\ scrape_unicorn_names_async df w = (w1, inl e))
  \/ (exists w1 w2 e,
        open_page w = (w1, inr tt)
        /\ close (world (fst (run_loop df w1))) = (w2, inl e)
        /\ scrape_unicorn_names_async df w = (w2, inl e))
  \/ (exists w1 w2 df',
        open_page w = (w1, inr tt)
        /\ close (world (fst (run_loop df w1))) = (w2, inr tt)
        /\ scrape_unicorn_names_async df w
           = (w2, inr (df', status_messages (fst (run_loop df w1))))
        /\ len df' = len df).
Proof.
  intros Hnum. rewrite (scrape_spec_numeric df w Hnum).
  destruct (open_page w) as [w1 [e|[]]].
  { left. exists w1, e. now split. }
  right.
  destruct (close (world (fst (run_loop df w1)))) as [w2 [e|[]]] eqn:Ec.
  { left. exists w1, w2, e. now rewrite Ec. }
  right.
  destruct (setitem_ok df UNICORN_NAME _ (results_as_cells_length df w1 Hnum))
    as (df' & Hset & _ & Hlen & _).
  exists w1, w2, df'. rewrite Ec, Hset.
  split; [reflexivity|]. split; [reflexivity|]. now split.
Qed.

(** What a returned table and log look like, whatever the row labels. *)
Lemma scrape_returned (df df' : DataFrame) (w w' : W) (log : list pystr) :
  scrape_unicorn_names_async df w = (w', inr (df', log)) ->
  In UNICORN_NAME (columns df')
  /\ len df' = len df
  /\ (In UNICORN_NAME (columns df) -> columns df' = columns df)
  /\ List.length log = (2 * len df)%nat.
Proof.
  rewrite scrape_spec.
  destruct (open_page w) as [w1 [e|[]]]; [discriminate|].
  destruct (run_loop df w1) as [s [e|[]]] eqn:Hloop; [discriminate|].
  destruct (close (world s)) as [w2 [e|[]]]; [discriminate|].
  destruct (run_loop_returned df w1 s Hloop) as [Hres Hlog].
  assert (Hcells : List.length (map CStr (results s)) = len df)
    by (now rewrite length_map).
  destruct (setitem_ok df UNICORN_NAME _ Hcells)
    as (df0 & Hset & Hin & Hlen & Hsame).
  rewrite Hset. intros H. injection H as _ <- <-.
  split; [exact Hin|]. split; [exact Hlen|]. split; [exact Hsame | exact Hlog].
Qed.

(** X11: feeding the returned table to the coroutine again does not make
    it grow: the second result has the columns of the first, and still
    one row per original row. *)
Theorem second_run_keeps_the_columns (df df1 df2 : DataFrame)
  (w w' v v' : W) (log1 log2 : list pystr) :
  scrape_unicorn_names_async df w = (w', inr (df1, log1)) ->
  scrape_unicorn_names_async df1 v = (v', inr (df2, log2)) ->
  columns df2 = columns df1
  /\ len df2 = len df
  /\ In UNICORN_NAME (columns df2).
Proof.
  intros H1 H2.
  apply scrape_returned in H1 as (Hin1 & Hlen1 & _ & _).
  apply scrape_returned in H2 as (Hin2 & Hlen2 & Hsame & _).
  split; [now apply Hsame|]. split; [congruence | exact Hin2].
Qed.

(** X10: when the table has numeric row labels and already has a
    [UnicornName] column, the coroutine writes the new cells into that
    column where it stands: the columns and the number of rows stay as
    they are, [row["UnicornName"]] is the new cell, and every other cell
    of the row is the one that was uploaded. *)
Theorem existing_column_is_replaced_in_place (df : DataFrame) (w w1 w2 : W) :
  numeric_index df = true ->
  rectangular df ->
  In UNICORN_NAME (columns df) ->
  open_page w = (w1, inr tt) ->
  close (world (fst (run_loop df w1))) = (w2, inr tt) ->
  exists df' log,
    scrape_unicorn_names_async df w = (w2, inr (df', log))
    /\ columns df' = columns df
    /\ len df' = len df
    /\ forall i r,
         nth_error (rows df) i = Some r ->
         exists r' c,
           nth_error (rows df') i = Some r'
           /\ nth_error (results (fst (run_loop df w1))) i = Some c
           /\ series_find UNICORN_NAME (combine (columns df) r') = Some (CStr c)
           /\ forall l, l <> UNICORN_NAME ->
                        series_find l (combine (columns df) r')
                        = series_find l (combine (columns df) r).
Proof.
  intros Hnum Hrect Hin Hopen Hclose.
  destruct (index_of_In _ _ Hin) as [k Hk].
  rewrite (scrape_spec_numeric df w Hnum), Hopen, Hclose. unfold setitem.
  rewrite (results_as_cells_length df w1 Hnum), Nat.eqb_refl, Hk.
  eexists. eexists. split; [reflexivity|]. cbn [columns rows].
  split; [reflexivity|]. split.
  - unfold len at 1. cbn [rows]. apply combine_map_length.
    now apply results_as_cells_length.
  - intros i r Hi.
    destruct (nth_error_replaced k (rows df) (results (fst (run_loop df w1)))
                i r (run_loop_results_length df w1 Hnum) Hi) as (c & Hc & Hrow).
    pose proof (rectangular_row df i r Hrect Hi) as Hlen.
    destruct (set_nth_series UNICORN_NAME (CStr c) (columns df) k r Hk Hlen)
      as [H1 H2].
    exists (set_nth k (CStr c) r), c.
    split; [exact Hrow|]. split; [exact Hc|]. split; [exact H1 | exact H2].
Qed.

End ScrapeMore.

(* ================================================================= *)
(** ** More on the Streamlit script *)

Section ScriptMore.

Context {B : Builtins} {W : Type} {P : Page W}.

(** X12: a run of the script that finds the session marked running, with
    a table that has both columns, always clears the mark.  Either the
    worker's table and log are stored and the script reruns, or one error
    is shown after the worker was started and the stored table and log
    stay as they were. *)
Theorem running_flag_is_reset (name_first clicked : bool) (df : DataFrame)
  (w : W) (elapsed : option Q) (ss : SessionState) :
  issubset (required name_first) (columns df) = true ->
  running ss = true ->
  running (fst (fst (script name_first (Some (inr df)) clicked w elapsed ss)))
  = false
  /\ ((exists out msgs,
         snd (run_scraping_in_thread df w) = inr (out, msgs)
         /\ script name_first (Some (inr df)) clicked w elapsed ss
            = (mkSession false (Some out) msgs,
               [StPreview (firstn 10 (rows df)) (len df);
                Submit df;
                StSuccess ([PARTY_POPPER; SPACE] ++ lit "Scraping completed!")],
               Rerun))
      \/ (exists msg shown ctl,
            script name_first (Some (inr df)) clicked w elapsed ss
            = (mkSession false (output_df ss) (status_msgs ss),
               StPreview (firstn 10 (rows df)) (len df)
               :: Submit df :: StError msg :: shown,
               ctl)
            /\ ctl <> Rerun)).
Proof.
  intros Hcols Hrun. unfold script, wait_for_worker, future_result.
  rewrite Hcols, Hrun, andb_false_r. cbn [negb].
  destruct (finished_by TIMEOUT elapsed).
  - destruct (snd (run_scraping_in_thread df w)) as [ex|[out msgs]].
    + destruct elapsed; cbn [fst running]; (split; [reflexivity|]); right;
        eexists; eexists; eexists; (split; [reflexivity | discriminate]).
    + cbn [fst running]. split; [reflexivity|]. left. now exists out, msgs.
  - destruct elapsed; cbn [fst running]; (split; [reflexivity|]); right;
      eexists; eexists; eexists; (split; [reflexivity | discriminate]).
Qed.

(** X13: three runs of the script make one batch.  The click marks the
    session running and clears what was stored; the rerun starts the
    worker and, when the worker returns in time, stores its table and log;
    the next rerun shows that log and that table. *)
Theorem batch_lifecycle (name_first : bool) (df out : DataFrame)
  (msgs : list pystr) (w0 w w' : W) (e0 elapsed e' : option Q)
  (ss : SessionState) :
  issubset (required name_first) (columns df) = true ->
  running ss = false ->
  finished_by TIMEOUT elapsed = true ->
  snd (run_scraping_in_thread df w) = inr (out, msgs) ->
  script name_first (Some (inr df)) true w0 e0 ss
  = (mkSession true None [],
     [StPreview (firstn 10 (rows df)) (len df)], Rerun)
  /\ script name_first (Some (inr df)) false w elapsed (mkSession true None [])
     = (mkSession false (Some out) msgs,
        [StPreview (firstn 10 (rows df)) (len df);
         Submit df;
         StSuccess ([PARTY_POPPER; SPACE] ++ lit "Scraping completed!")],
        Rerun)
  /\ script name_first (Some (inr df)) false w' e' (mkSession false (Some out) msgs)
     = (mkSession false (Some out) msgs,
        [StPreview (firstn 10 (rows df)) (len df); StLog msgs; StResults out],
        Done).
Proof.
  intros Hcols Hidle Hdone Hout.
  unfold script, wait_for_worker, future_result.
  rewrite Hcols, Hidle, Hdone, Hout. cbn [negb andb running].
  now repeat split.
Qed.

Lemma script_while_running (name_first clicked : bool) (df : DataFrame)
  (w : W) (elapsed : option Q) (ss : SessionState) :
  issubset (required name_first) (columns df) = true ->
  running ss = true ->
  fst (fst (script name_first (Some (inr df)) clicked w elapsed ss))
  = fst (fst (wait_for_worker df w elapsed ss)).
Proof.
  intros Hcols Hrun. unfold script.
  rewrite Hcols, Hrun, andb_false_r. cbn [negb].
  now destruct (wait_for_worker df w elapsed ss) as [[ss' evs] [c|]].
Qed.

(** X14: whenever the session holds a table, it is not marked running,
    and the table and the stored log are what one run of the coroutine
    returned for a table with both columns: the stored table has the
    [UnicornName] column and the rows of that table, and the log has two
    lines per row. *)
Theorem shown_table_comes_from_a_run (ss : SessionState) :
  reachable ss ->
  forall out,
    output_df ss = Some out ->
    running ss = false
    /\ exists df w,
         snd (run_scraping_in_thread df w) = inr (out, status_msgs ss)
         /\ In NAME (columns df) /\ In MONTH (columns df)
         /\ In UNICORN_NAME (columns out)
         /\ len out = len df
         /\ List.length (status_msgs ss) = (2 * len df)%nat.
Proof.
  induction 1 as [|name_first uploaded clicked w elapsed ss Hss IH];
    intros out; [discriminate|].
  destruct uploaded as [[e|input_df]|]; try apply IH.
  destruct (issubset (required name_first) (columns input_df)) eqn:Hcols.
  2:{ unfold script. rewrite Hcols. apply IH. }
  destruct (running ss) eqn:Hrun.
  - rewrite (script_while_running _ _ _ _ _ _ Hcols Hrun).
    unfold wait_for_worker, future_result.
    destruct (finished_by TIMEOUT elapsed).
    + destruct (snd (run_scraping_in_thread input_df w)) as [ex|[out' msgs]] eqn:Hw;
        cbn [fst output_df status_msgs running]; intros Ho.
      * destruct (running_session_is_clear ss Hss Hrun). congruence.
      * injection Ho as <-. split; [reflexivity|].
        exists input_df, w. split; [exact Hw|].
        apply issubset_required in Hcols as [Hn Hm].
        split; [exact Hn|]. split; [exact Hm|].
        unfold run_scraping_in_thread in Hw.
        destruct (scrape_unicorn_names_async input_df w) as [w' r] eqn:Hs.
        cbn [snd] in Hw. subst r.
        destruct (scrape_returned _ _ _ _ _ Hs) as (H1 & H2 & _ & H4).
        split; [exact H1|]. split; [exact H2 | exact H4].
    + cbn [fst output_df]. intros Ho.
      destruct (running_session_is_clear ss Hss Hrun). congruence.
  - unfold script. rewrite Hcols, Hrun, andb_true_r. cbn [negb].
    destruct clicked; cbn [fst output_df]; [discriminate|].
    intros Ho. destruct (IH out Ho) as [_ Hrest].
    split; [exact Hrun | exact Hrest].
Qed.

(** X15: when the worker returns in time with an exception that is not a
    time-out, because the browser could not be opened or closed, the
    script shows "Scraping failed: " followed by the exception's message,
    shows no table, and leaves the session not running and empty. *)
Theorem worker_failure_is_reported (name_first clicked : bool) (df : DataFrame)
  (w : W) (elapsed : option Q) (ss : SessionState) (e : Exn) :
  reachable ss ->
  running ss = true ->
  issubset (required name_first) (columns df) = true ->
  finished_by TIMEOUT elapsed = true ->
  snd (run_scraping_in_thread df w) = inl e ->
  exn_timeout e = false ->
  script name_first (Some (inr df)) clicked w elapsed ss
  = (mkSession false None [],
     [StPreview (firstn 10 (rows df)) (len df);
      Submit df;
      StError (lit "Scraping failed: " ++ exn_msg e)],
     Done).
Proof.
  intros Hreach Hrun Hcols Hdone Hfail Hkind.
  destruct (running_session_is_clear ss Hreach Hrun) as [Hout Hmsgs].
  unfold script, wait_for_worker, future_result.
  rewrite Hcols, Hrun, Hdone, Hfail, Hkind, Hout, Hmsgs, andb_false_r.
  cbn [negb]. destruct elapsed; [reflexivity | discriminate Hdone].
Qed.

End ScriptMore.

Section ValidationMore.

Context {B : Builtins} {W : Type} {P : Page W}.

(** X16: the only thing the script checks on an uploaded table is that
    [Name] and [Month] are among its columns, in any order and with any
    other columns beside them: a run ends at [st.stop()] exactly when one
    of the two is missing. *)
Theorem script_stops_exactly_on_missing_columns (name_first clicked : bool)
  (df : DataFrame) (w : W) (elapsed : option Q) (ss : SessionState) :
  snd (script name_first (Some (inr df)) clicked w elapsed ss) = Stop
  <-> ~ (In NAME (columns df) /\ In MONTH (columns df)).
Proof.
  unfold script.
  destruct (issubset (required name_first) (columns df)) eqn:Hcols; cbn [negb].
  - split.
    + destruct (clicked && negb (running ss)); [discriminate|].
      destruct (running ss); [|discriminate].
      unfold wait_for_worker.
      destruct (future_result _ _ _) as [ex|[out msgs]]; [|discriminate].
      destruct elapsed; discriminate.
    + intros H. exfalso. apply H. now apply (issubset_required name_first).
  - split; [|reflexivity]. intros _ H.
    apply (issubset_required name_first) in H. congruence.
Qed.

End ValidationMore.

(* ================================================================= *)
(** ** Concrete runs *)

Import Demo.

(** An empty [Month] field in the CSV is read as NaN; the row fails with
    the message of [int()], not with "Month must be 1–12". *)
Lemma nan_month_gets_conversion_message :
  spec_month_ok (CFloat FNan) = false
  /\ snd (scrape_unicorn_names_async (mkDF cols [nan_month]) blank)
     = inr (mkDF [NAME; MONTH; UNICORN_NAME]
                 [[CStr (lit "Eve"); CFloat FNan;
                   CStr (lit "Error: cannot convert float NaN to integer")]],
            [lit "Processing row 1/1: Eve...";
             lit "Row 1 failed: cannot convert float NaN to integer"])
  /\ lit "Error: cannot convert float NaN to integer"
     <> lit "Error: " ++ MONTH_MESSAGE.
Proof.
  split; [reflexivity|]. split; [reflexivity|].
  intros H. vm_compute in H. discriminate H.
Qed.

Lemma bad_month_fails_alone_witness :
  (exists df' log r',
     scrape_unicorn_names_async three_rows blank
     = ((lit "Bob", lit "December"), inr (df', log))
     /\ nth_error (rows df') 1 = Some r'
     /\ series_find UNICORN_NAME (combine (columns df') r')
        = Some (CStr (lit "Error: " ++ MONTH_MESSAGE)))
  /\ world (fst (run_loop three_rows blank))
     = world (fst (for_rows 3 [(LInt 0, combine cols ann); (LInt 2, combine cols bob)]
                            (mkFrame blank [] []))).
Proof.
  destruct (bad_month_fails_alone three_rows
              [(LInt 0, combine cols ann)] [(LInt 2, combine cols bob)]
              (LInt 1) (combine cols zed) (CInt 13) MONTH_MESSAGE
              blank blank (lit "Bob", lit "December"))
    as (_ & H2 & _ & H4).
  - reflexivity.
  - repeat constructor.
  - reflexivity.
  - reflexivity.
  - reflexivity.
  - reflexivity.
  - reflexivity.
  - split; [exact H2 | exact H4].
Defined.

(** C2 (a defect of the code): a CSV whose data lines hold one field more
    than the header gives text row labels.  On such a table [i+1] raises
    in the [try] body, and then again in the [except] clause, where
    nothing catches it: after the Error cell of the first row the
    exception leaves the loop and the coroutine, the second row is never
    processed, and the script reports the whole batch as failed. *)
Theorem handler_raises_on_a_text_label :
  run_loop text_labels blank
  = (mkFrame blank [lit "Error: " ++ concatenate_message (lit "str")] [],
     inl (TypeError (concatenate_message (lit "str"))))
  /\ snd (scrape_unicorn_names_async text_labels blank)
     = inl (TypeError (concatenate_message (lit "str")))
  /\ script true (Some (inr text_labels)) false blank (Some 1%Q)
            (mkSession true None [])
     = (mkSession false None [],
        [StPreview [ann; bob] 2;
         Submit text_labels;
         StError (lit "Scraping failed: " ++ concatenate_message (lit "str"))],
        Done).
Proof. split; [reflexivity|]. split; reflexivity. Qed.

(** C9 (the same defect of the code): on the table with text row labels
    the loop iterates over the first row and appends no log line for it,
    neither the "Processing" line, which comes after the failing [i+1],
    nor the "failed" line, which the [except] clause never reaches; the
    log is empty although the table has two rows. *)
Theorem text_label_row_logs_nothing :
  len text_labels = 2%nat
  /\ status_messages (fst (run_loop text_labels blank)) = []
  /\ List.length (results (fst (run_loop text_labels blank))) = 1%nat
  /\ List.length (status_messages (fst (run_loop text_labels blank)))
     <> (2 * len text_labels)%nat.
Proof.
  split; [reflexivity|]. split; [reflexivity|]. split; [reflexivity|].
  discriminate.
Qed.

(** A table that already has a [UnicornName] column comes back with the
    same three columns, and the old cell is gone. *)
Lemma existing_column_is_overwritten :
  ~ (exists c, nth_error (rows uploaded_again) 0 = Some c
               /\ exists df' log,
                    snd (scrape_unicorn_names_async uploaded_again blank)
                    = inr (df', log)
                    /\ columns df' = columns uploaded_again ++ [UNICORN_NAME])
  /\ snd (scrape_unicorn_names_async uploaded_again blank)
     = inr (mkDF [NAME; MONTH; UNICORN_NAME]
                 [[CStr (lit "Ann"); CInt 1; CStr (lit "Ann January")]],
            [lit "Processing row 1/1: Ann...";
             [RIGHT_ARROW; SPACE] ++ lit "Ann January"]).
Proof.
  split; [|reflexivity].
  intros (c & _ & df' & log & Hrun & Hcols).
  vm_compute in Hrun. injection Hrun as <- _.
  vm_compute in Hcols. discriminate Hcols.
Qed.

Lemma output_table_shape_witness :
  exists df' log,
    scrape_unicorn_names_async (mkDF cols [ann; zed]) blank
    = ((lit "Ann", lit "January"), inr (df', log))
    /\ columns df' = cols ++ [UNICORN_NAME]
    /\ len df' = 2%nat.
Proof.
  destruct (output_table_shape (mkDF cols [ann; zed]) blank blank
              (lit "Ann", lit "January")) as (df' & log & H1 & H2 & H3 & _).
  - reflexivity.
  - intros [H|[H|[]]]; discriminate H.
  - reflexivity.
  - reflexivity.
  - exists df', log. split; [exact H1|]. split; [exact H2 | exact H3].
Defined.

Lemma timeout_is_reported_apart_witness :
  script true (Some (inr (mkDF cols [ann]))) false blank None
         (mkSession true None [])
  = (mkSession false None [],
     [StPreview [ann] 1; Submit (mkDF cols [ann]); StError TIMED_OUT_MESSAGE],
     Blocked).
Proof.
  apply (timeout_is_reported_apart true false (mkDF cols [ann]) blank None
           (mkSession true None [])).
  - exact (reach_run true (Some (inr (mkDF cols [ann]))) true blank None
             initial_session reach_initial).
  - reflexivity.
  - reflexivity.
  - reflexivity.
Defined.

Lemma month_mapping_witness :
  month_name_of (combine cols ann) = inr (lit "January")
  /\ month_name_of (combine cols bob) = inr (lit "December")
  /\ month_name_of (combine cols zed) = inl (ValueError MONTH_MESSAGE)
  /\ month_name_of (combine cols [CStr (lit "Nil"); CInt 0])
     = inl (ValueError MONTH_MESSAGE).
Proof.
  destruct (month_mapping (W:=World) (combine cols ann) 1 eq_refl)
    as (Hjan & _).
  destruct (month_mapping (W:=World) (combine cols bob) 12 eq_refl)
    as (_ & Hdec & _).
  destruct (month_mapping (W:=World) (combine cols zed) 13 eq_refl)
    as (_ & _ & _ & Hhigh).
  destruct (month_mapping (W:=World) (combine cols [CStr (lit "Nil"); CInt 0]) 0
              eq_refl) as (_ & _ & _ & Hlow).
  split; [apply Hjan; reflexivity|].
  split; [apply Hdec; reflexivity|].
  split; [apply Hhigh; lia | apply Hlow; lia].
Defined.

Lemma missing_column_stops_the_script_witness :
  script true (Some (inr (mkDF [NAME] [[CStr (lit "Ann")]]))) true blank
         (Some 1%Q) initial_session
  = (initial_session, [StError (lit "CSV must have columns: Name, Month")], Stop).
Proof.
  apply (missing_column_stops_the_script true true
           (mkDF [NAME] [[CStr (lit "Ann")]]) blank (Some 1%Q) initial_session).
  right. intros [H|[]]. discriminate H.
Defined.

Lemma empty_table_is_not_an_error_witness :
  exists df',
    scrape_unicorn_names_async (mkDF cols []) blank = (blank, inr (df', []))
    /\ rows df' = [] /\ In UNICORN_NAME (columns df').
Proof.
  apply (empty_table_is_not_an_error cols blank blank blank); reflexivity.
Defined.

(* ================================================================= *)
(** ** Concrete runs for the further properties *)

Lemma cleaned_leaves_clean_labels_witness :
  cleaned (lit "Sparkle Dust") = lit "Sparkle Dust".
Proof.
  apply cleaned_leaves_clean_labels.
  - reflexivity.
  - intros H. vm_compute in H.
    repeat (destruct H as [H|H]; [discriminate H|]). exact H.
  - reflexivity.
Defined.

Lemma batches_compose_witness :
  world (fst (run_loop three_rows blank))
  = world (fst (for_rows (len three_rows)
                  [(LInt 1, combine cols zed); (LInt 2, combine cols bob)]
                  (mkFrame (world (fst (for_rows (len three_rows)
                                          [(LInt 0, combine cols ann)]
                                          (mkFrame blank [] []))))
                           [] []))).
Proof.
  apply (batches_compose three_rows [(LInt 0, combine cols ann)]
           [(LInt 1, combine cols zed); (LInt 2, combine cols bob)] blank);
    reflexivity.
Defined.

Lemma cell_and_log_agree_witness :
  (exists raw,
     nth_error (results (fst (run_loop number_labels blank))) 1 = Some (cleaned raw)
     /\ nth_error (status_messages (fst (run_loop number_labels blank))) (2 * 1 + 1)
        = Some ([RIGHT_ARROW; SPACE] ++ cleaned raw))
  \/ (exists n msg,
        plus_one (LInt 9) = inr n
        /\ nth_error (results (fst (run_loop number_labels blank))) 1
           = Some (lit "Error: " ++ msg)
        /\ nth_error (status_messages (fst (run_loop number_labels blank))) (2 * 1 + 1)
           = Some (lit "Row " ++ py_str n ++ lit " failed: " ++ msg)).
Proof.
  apply (cell_and_log_agree number_labels blank 1 (LInt 9) (combine cols zed));
    reflexivity.
Defined.

Lemma log_two_lines_per_row_witness :
  List.length (status_messages (fst (run_loop number_labels blank))) = 4%nat
  /\ exists n,
       plus_one (LInt 5) = inr n
       /\ nth_error (status_messages (fst (run_loop number_labels blank))) (2 * 0)
          = Some (lit "Processing row " ++ py_str n ++ lit "/"
                  ++ of_Z (Z.of_nat (len number_labels)) ++ lit ": "
                  ++ match series_find NAME (combine cols ann) with
                     | Some v => py_str v
                     | None => lit "N/A"
                     end
                  ++ lit "...").
Proof.
  destruct (log_two_lines_per_row number_labels blank eq_refl) as [Hlen Hrows].
  split; [exact Hlen|].
  exact (Hrows 0%nat (LInt 5) (combine cols ann) eq_refl).
Defined.

Lemma missing_month_column_fails_every_row_witness :
  results (fst (run_loop (mkDF [NAME] [[CStr (lit "Ann")]; [CStr (lit "Bob")]])
                         blank))
  = [lit "Error: 'Month'"; lit "Error: 'Month'"].
Proof.
  apply (missing_month_column_fails_every_row
           (mkDF [NAME] [[CStr (lit "Ann")]; [CStr (lit "Bob")]]) blank).
  - reflexivity.
  - intros [H|[]]. discriminate H.
Defined.

Lemma missing_name_column_fails_every_row_witness :
  world (fst (run_loop (mkDF [MONTH] [[CInt 1]; [CInt 13]]) blank)) = blank.
Proof.
  apply (missing_name_column_fails_every_row (mkDF [MONTH] [[CInt 1]; [CInt 13]])
           blank).
  - reflexivity.
  - intros [H|[]]. discriminate H.
Defined.

Lemma float_month_is_truncated_witness :
  month_name_of (combine cols [CStr (lit "Ann"); CFloat (FFin (39 # 10))])
  = inr (lit "March").
Proof.
  apply (float_month_is_truncated
           (combine cols [CStr (lit "Ann"); CFloat (FFin (39 # 10))]) (39 # 10)).
  reflexivity.
Defined.

Lemma month_names_are_distinct_witness : 12 = 12.
Proof.
  apply (month_names_are_distinct (combine cols bob)
           (combine cols [CStr (lit "Zoe"); CInt 12]) 12 12).
  - reflexivity.
  - reflexivity.
  - lia.
  - lia.
  - reflexivity.
Defined.

Lemma coroutine_raises_only_at_open_or_close_witness :
  (exists w1 e,
     open_page blank = (w1, inl e)
     /\ scrape_unicorn_names_async three_rows blank = (w1, inl e))
  \/ (exists w1 w2 e,
        open_page blank = (w1, inr tt)
        /\ close (world (fst (run_loop three_rows w1))) = (w2, inl e)
        /\ scrape_unicorn_names_async three_rows blank = (w2, inl e))
  \/ (exists w1 w2 df',
        open_page blank = (w1, inr tt)
        /\ close (world (fst (run_loop three_rows w1))) = (w2, inr tt)
        /\ scrape_unicorn_names_async three_rows blank
           = (w2, inr (df', status_messages (fst (run_loop three_rows w1))))
        /\ len df' = len three_rows).
Proof.
  apply (coroutine_raises_only_at_open_or_close three_rows blank). reflexivity.
Defined.

Lemma existing_column_is_replaced_in_place_witness :
  exists df' log,
    scrape_unicorn_names_async uploaded_again blank
    = ((lit "Ann", lit "January"), inr (df', log))
    /\ columns df' = columns uploaded_again
    /\ len df' = len uploaded_again.
Proof.
  destruct (existing_column_is_replaced_in_place uploaded_again blank blank
              (lit "Ann", lit "January"))
    as (df' & log & H1 & H2 & H3 & _).
  - reflexivity.
  - constructor; [reflexivity | constructor].
  - right. right. left. reflexivity.
  - reflexivity.
  - reflexivity.
  - exists df', log. split; [exact H1|]. split; [exact H2 | exact H3].
Defined.

Lemma second_run_keeps_the_columns_witness :
  columns (mkDF [NAME; MONTH; UNICORN_NAME]
                [[CStr (lit "Ann"); CInt 1; CStr (lit "Ann January")]])
  = [NAME; MONTH; UNICORN_NAME].
Proof.
  assert (H1 : scrape_unicorn_names_async (mkDF cols [ann]) blank
               = ((lit "Ann", lit "January"),
                  inr (mkDF [NAME; MONTH; UNICORN_NAME]
                            [[CStr (lit "Ann"); CInt 1; CStr (lit "Ann January")]],
                       [lit "Processing row 1/1: Ann...";
                        [RIGHT_ARROW; SPACE] ++ lit "Ann January"])))
    by (vm_compute; reflexivity).
  assert (H2 : scrape_unicorn_names_async
                 (mkDF [NAME; MONTH; UNICORN_NAME]
                       [[CStr (lit "Ann"); CInt 1; CStr (lit "Ann January")]])
                 blank
               = ((lit "Ann", lit "January"),
                  inr (mkDF [NAME; MONTH; UNICORN_NAME]
                            [[CStr (lit "Ann"); CInt 1; CStr (lit "Ann January")]],
                       [lit "Processing row 1/1: Ann...";
                        [RIGHT_ARROW; SPACE] ++ lit "Ann January"])))
    by (vm_compute; reflexivity).
  exact (proj1 (second_run_keeps_the_columns _ _ _ _ _ _ _ _ _ H1 H2)).
Defined.

Lemma running_flag_is_reset_witness :
  running (fst (fst (script true (Some (inr (mkDF cols [ann]))) true blank
                            (Some 1%Q) (mkSession true None []))))
  = false.
Proof.
  apply (running_flag_is_reset true true (mkDF cols [ann]) blank (Some 1%Q)
           (mkSession true None [])); reflexivity.
Defined.

Lemma batch_lifecycle_witness :
  script true (Some (inr (mkDF cols [ann]))) false blank None
         (mkSession false
                    (Some (mkDF [NAME; MONTH; UNICORN_NAME]
                                [[CStr (lit "Ann"); CInt 1;
                                  CStr (lit "Ann January")]]))
                    [lit "Processing row 1/1: Ann...";
                     [RIGHT_ARROW; SPACE] ++ lit "Ann January"])
  = (mkSession false
               (Some (mkDF [NAME; MONTH; UNICORN_NAME]
                           [[CStr (lit "Ann"); CInt 1; CStr (lit "Ann January")]]))
               [lit "Processing row 1/1: Ann...";
                [RIGHT_ARROW; SPACE] ++ lit "Ann January"],
     [StPreview (firstn 10 (rows (mkDF cols [ann]))) (len (mkDF cols [ann]));
      StLog [lit "Processing row 1/1: Ann...";
             [RIGHT_ARROW; SPACE] ++ lit "Ann January"];
      StResults (mkDF [NAME; MONTH; UNICORN_NAME]
                      [[CStr (lit "Ann"); CInt 1; CStr (lit "Ann January")]])],
     Done).
Proof.
  apply (batch_lifecycle true (mkDF cols [ann]) _ _ blank blank blank
           None (Some 1%Q) None initial_session).
  - reflexivity.
  - reflexivity.
  - reflexivity.
  - vm_compute. reflexivity.
Defined.

Lemma shown_table_comes_from_a_run_witness :
  running (fst (fst (script true (Some (inr (mkDF cols [ann]))) false blank
                            (Some 1%Q) (mkSession true None []))))
  = false.
Proof.
  apply (shown_table_comes_from_a_run
           (fst (fst (script true (Some (inr (mkDF cols [ann]))) false blank
                             (Some 1%Q) (mkSession true None []))))
           (reach_run true (Some (inr (mkDF cols [ann]))) false blank (Some 1%Q)
              (mkSession true None [])
              (reach_run true (Some (inr (mkDF cols [ann]))) true blank None
                 initial_session reach_initial))
           (mkDF [NAME; MONTH; UNICORN_NAME]
                 [[CStr (lit "Ann"); CInt 1; CStr (lit "Ann January")]])).
  vm_compute. reflexivity.
Defined.

Lemma worker_failure_is_reported_witness :
  script (P:=Offline.page) true (Some (inr (mkDF cols [ann]))) false blank
         (Some 1%Q) (mkSession true None [])
  = (mkSession false None [],
     [StPreview (firstn 10 (rows (mkDF cols [ann]))) (len (mkDF cols [ann]));
      Submit (mkDF cols [ann]);
      StError (lit "Scraping failed: "
               ++ exn_msg (mkExn false (lit "Executable doesn't exist")))],
     Done).
Proof.
  apply (worker_failure_is_reported (P:=Offline.page) true false
           (mkDF cols [ann]) blank (Some 1%Q) (mkSession true None [])
           (mkExn false (lit "Executable doesn't exist"))).
  - exact (reach_run (P:=Offline.page) true (Some (inr (mkDF cols [ann]))) true
             blank None initial_session (reach_initial (P:=Offline.page))).
  - reflexivity.
  - reflexivity.
  - reflexivity.
  - reflexivity.
  - reflexivity.
Defined.

Lemma text_label_ends_the_batch_witness :
  exists e,
    plus_one (LStr (lit "x")) = inl e
    /\ scrape_unicorn_names_async text_labels blank
       = (world (fst (for_rows (len text_labels) [] (mkFrame blank [] []))), inl e)
    /\ results (fst (run_loop text_labels blank))
       = results (fst (for_rows (len text_labels) [] (mkFrame blank [] [])))
         ++ [lit "Error: " ++ exn_msg e]
    /\ status_messages (fst (run_loop text_labels blank))
       = status_messages (fst (for_rows (len text_labels) [] (mkFrame blank [] []))).
Proof.
  apply (text_label_ends_the_batch text_labels []
           [(LStr (lit "y"), combine cols bob)] (LStr (lit "x"))
           (combine cols ann) blank blank).
  - reflexivity.
  - constructor.
  - reflexivity.
  - reflexivity.
Defined.

Lemma row_exception_is_caught_witness :
  nth_error (results (fst (run_loop with_empty_name blank))) 1
  = Some (lit "Error: Timeout 10000ms exceeded.")
  /\ List.length (results (fst (run_loop with_empty_name blank))) = 3%nat.
Proof.
  assert (Hraised :
            row_body (len with_empty_name) (LInt 1) (combine cols no_name)
                     (fst (for_rows (len with_empty_name)
                                    [(LInt 0, combine cols ann)]
                                    (mkFrame blank [] [])))
            = (mkFrame (([], lit "March") : World)
                       [lit "Ann January"]
                       [lit "Processing row 1/3: Ann...";
                        [RIGHT_ARROW; SPACE] ++ lit "Ann January";
                        lit "Processing row 2/3: ..."],
               inl (mkExn false (lit "Timeout 10000ms exceeded."))))
    by (vm_compute; reflexivity).
  destruct (row_exception_is_caught with_empty_name
              [(LInt 0, combine cols ann)] [(LInt 2, combine cols bob)]
              (LInt 1) (combine cols no_name) (CInt 2) blank _ _
              eq_refl eq_refl eq_refl Hraised)
    as (_ & _ & H3 & _ & H5).
  split; [exact H3 | exact H5].
Defined.

